(** * Trace-context codecs of aiojaeger / aiozipkin

    A shallow embedding of

      - [aiozipkin/spancontext/__init__.py]: [BaseTraceContext] and
        [DummyTraceContext];
      - [aiojaeger/spancontext/jaeger.py]: [JaegerConst] with
        [make_trace_id], [parse_trace_id], [make_headers], [make_context].

    Python strings are modelled by [string], read as sequences of code
    points below 256; Python integers by [Z]; exceptions by an explicit
    result type; a [dict] by its items in insertion order.  [str()] of an
    integer is subject to the interpreter's limit on the number of digits,
    and the construction of a context by pydantic can fail on it. *)

From Stdlib Require Import ZArith NArith List String Ascii Bool Lia.
From Stdlib Require Import DecimalString.
From Stdlib Require HexadecimalString HexadecimalZ DecimalZ.
Import ListNotations.

Local Open Scope string_scope.
Local Open Scope Z_scope.

(** ** The Python primitives the codecs rely on *)

Module Py.

(** The exception classes that occur in the two modules, and pydantic's
    [ValidationError], which derives from [ValueError]. *)
Inductive exn : Set :=
| ValueError
| KeyError
| AttributeError
| ValidationError.

(** A computation either returns or raises. *)
Inductive result (A : Type) : Type :=
| Ok (a : A)
| Raise (e : exn).

Arguments Ok {A} a.
Arguments Raise {A} e.

Definition bind {A B : Type} (m : result A) (k : A -> result B) : result B :=
  match m with
  | Ok a => k a
  | Raise e => Raise e
  end.

(** [try: m  except cls: handler], for a handler that may itself raise. *)
Definition try_except {A : Type} (m : result A) (catches : exn -> bool)
           (handler : result A) : result A :=
  match m with
  | Ok a => Ok a
  | Raise e => if catches e then handler else Raise e
  end.

(** [map(f, xs)] forced by [tuple(...)]: left to right, the first raise wins. *)
Fixpoint map_result {A B : Type} (f : A -> result B) (xs : list A)
  : result (list B) :=
  match xs with
  | [] => Ok []
  | x :: xs' =>
      bind (f x) (fun y =>
      bind (map_result f xs') (fun ys => Ok (y :: ys)))
  end.

(** *** [str.lower()] on code points below 256 *)

Definition lower_char (c : ascii) : ascii :=
  let n := N_of_ascii c in
  if ((65 <=? n) && (n <=? 90))%N
     || ((192 <=? n) && (n <=? 222) && negb (n =? 215))%N
  then ascii_of_N (n + 32)
  else c.

Fixpoint lower (s : string) : string :=
  match s with
  | EmptyString => EmptyString
  | String c r => String (lower_char c) (lower r)
  end.

(** *** [s.split(sep, maxsplit)] for a one-character separator

    At most [maxsplit] cuts are made, at the leftmost separators; what
    follows the last cut is kept whole, so up to [maxsplit + 1] parts
    come back. *)

Fixpoint split (sep : ascii) (maxsplit : nat) (s : string) : list string :=
  match s with
  | EmptyString => [EmptyString]
  | String c r =>
      match maxsplit with
      | O => [s]
      | S m =>
          if Ascii.eqb c sep then EmptyString :: split sep m r
          else match split sep maxsplit r with
               | p :: ps => String c p :: ps
               | [] => [String c EmptyString]
               end
      end
  end.

(** *** [str(n)] and f-string rendering

    [decimal n] is the decimal numeral of [n].  [str(n)] returns it unless
    [n] has more digits than [sys.int_info.default_max_str_digits], the
    sign not counted: then the conversion raises [ValueError]. *)

Definition decimal (n : Z) : string := NilZero.string_of_int (Z.to_int n).

Definition int_max_str_digits : nat := 4300.

Definition exceeds_max_str_digits (n : Z) : bool :=
  Nat.ltb int_max_str_digits (String.length (decimal (Z.abs n))).

Definition str (n : Z) : result string :=
  if exceeds_max_str_digits n then Raise ValueError else Ok (decimal n).

Definition str_of_optional (o : option string) : string :=
  match o with
  | Some s => s
  | None => "None"
  end.

(** *** [int(s, 16)]

    CPython's [PyLong_FromString] for base 16: leading whitespace, an
    optional sign, an optional [0x]/[0X] prefix (which may be followed by
    one underscore), then hexadecimal digits with single underscores
    between them, then trailing whitespace.  In a [str] the code points
    U+0085 and U+00A0 count as whitespace as well. *)

Definition isspace (c : ascii) : bool :=
  let n := N_of_ascii c in
  (((9 <=? n) && (n <=? 13)) || (n =? 32) || (n =? 133) || (n =? 160))%N.

Definition digit_value (c : ascii) : option Z :=
  let n := N_of_ascii c in
  if ((48 <=? n) && (n <=? 57))%N then Some (Z.of_N n - 48)
  else if ((97 <=? n) && (n <=? 102))%N then Some (Z.of_N n - 87)
  else if ((65 <=? n) && (n <=? 70))%N then Some (Z.of_N n - 55)
  else None.

Fixpoint skip_space (s : string) : string :=
  match s with
  | String c r => if isspace c then skip_space r else s
  | EmptyString => s
  end.

(** The digit loop: [prev_us] says that the previous character was an
    underscore, [consumed] that the loop has moved at all.  It returns
    the value read and the rest of the text, or fails on a doubled or a
    trailing underscore. *)
Fixpoint scan_digits (prev_us consumed : bool) (acc : Z) (s : string)
  : option (Z * bool * string) :=
  match s with
  | EmptyString => if prev_us then None else Some (acc, consumed, s)
  | String c r =>
      if Ascii.eqb c "_"%char then
        if prev_us then None else scan_digits true true acc r
      else
        match digit_value c with
        | Some d => scan_digits false true (acc * 16 + d) r
        | None => if prev_us then None else Some (acc, consumed, s)
        end
  end.

Definition skip_sign (s : string) : Z * string :=
  match s with
  | String "+"%char r => (1, r)
  | String "-"%char r => (-1, r)
  | _ => (1, s)
  end.

Definition skip_prefix (s : string) : string :=
  match s with
  | String "0"%char (String x r) =>
      if Ascii.eqb x "x"%char || Ascii.eqb x "X"%char then
        match r with
        | String "_"%char r' => r'
        | _ => r
        end
      else s
  | _ => s
  end.

Definition starts_with_underscore (s : string) : bool :=
  match s with
  | String c _ => Ascii.eqb c "_"%char
  | EmptyString => false
  end.

Definition int_16 (s : string) : result Z :=
  let '(sign, s1) := skip_sign (skip_space s) in
  let s2 := skip_prefix s1 in
  if starts_with_underscore s2 then Raise ValueError
  else
    match scan_digits false false 0 s2 with
    | None => Raise ValueError
    | Some (z, consumed, rest) =>
        if negb consumed then Raise ValueError
        else
          match skip_space rest with
          | EmptyString => Ok (sign * z)
          | String _ _ => Raise ValueError
          end
    end.

(** *** [dict] with string keys, as its items in insertion order *)

Definition dict : Type := list (string * string).

(** [d[k] = v]: an existing key keeps its place, a new one goes last. *)
Fixpoint setitem (d : dict) (k v : string) : dict :=
  match d with
  | [] => [(k, v)]
  | (k', v') :: d' =>
      if String.eqb k' k then (k', v) :: d'
      else (k', v') :: setitem d' k v
  end.

(** [d[k]], raising [KeyError] for a missing key. *)
Fixpoint getitem (d : dict) (k : string) : result string :=
  match d with
  | [] => Raise KeyError
  | (k', v') :: d' => if String.eqb k' k then Ok v' else getitem d' k
  end.

(** [{f(k): v for k, v in d.items()}] *)
Definition map_keys (f : string -> string) (d : dict) : dict :=
  fold_left (fun acc kv => setitem acc (f (fst kv)) (snd kv)) d [].

(** [bool(n)] for an integer. *)
Definition bool_of_int (n : Z) : bool := negb (n =? 0).

(** Truth value of an [Optional[bool]]: [None] is falsy. *)
Definition truthy (o : option bool) : bool :=
  match o with
  | Some b => b
  | None => false
  end.

End Py.

Notation "x <- m ;; k" := (Py.bind m (fun x => k))
  (at level 61, m at next level, right associativity).

(** ** [aiozipkin/spancontext/__init__.py] *)

Definition CLIENT : string := "CLIENT".
Definition SERVER : string := "SERVER".
Definition PRODUCER : string := "PRODUCER".
Definition CONSUMER : string := "CONSUMER".

(** [Headers] is a [dict] from header names to header values. *)
Definition Headers : Type := Py.dict.

(** The fields of [BaseTraceContext], with the annotated types:
    [str], [str], [Optional[str]], [Optional[bool]], [bool], [bool]. *)
Record BaseTraceContext : Type := mkBaseTraceContext {
  trace_id : string;
  span_id : string;
  parent_id : option string;
  sampled : option bool;
  debug : bool;
  shared : bool
}.

(** Construction of a [BaseModel] subclass by keywords.  An argument for a
    [str] field is either a [str], kept as it is, or an [int], which the
    field validator of pydantic 1.x renders with [str()].  When a validator
    raises, the construction raises [ValidationError]. *)
Module Pydantic.

Inductive value : Type :=
| VStr (s : string)
| VInt (n : Z).

Definition str_validator (v : value) : Py.result string :=
  match v with
  | VStr s => Py.Ok s
  | VInt n => Py.str n
  end.

(** The validator of an [Optional[str]] field. *)
Definition optional_str_validator (o : option value)
  : Py.result (option string) :=
  match o with
  | None => Py.Ok None
  | Some v => s <- str_validator v ;; Py.Ok (Some s)
  end.

Definition init (trace_id span_id : value) (parent_id : option value)
           (sampled : option bool) (debug shared : bool)
  : Py.result BaseTraceContext :=
  match (t <- str_validator trace_id ;;
         s <- str_validator span_id ;;
         p <- optional_str_validator parent_id ;;
         Py.Ok {| trace_id := t;
                  span_id := s;
                  parent_id := p;
                  sampled := sampled;
                  debug := debug;
                  shared := shared |}) with
  | Py.Ok c => Py.Ok c
  | Py.Raise _ => Py.Raise Py.ValidationError
  end.

End Pydantic.

Module DummyTraceContext.

Definition make_headers : Headers := [].

(** [sampled_arg] is the optional second argument: [None] when the caller
    leaves it out, which selects the default [True]. *)
Definition make_context (headers : Headers)
           (sampled_arg : option (option bool)) : Py.result BaseTraceContext :=
  let sampled :=
    match sampled_arg with
    | Some given => given
    | None => Some true
    end in
  Pydantic.init (Pydantic.VStr "dummy-trace-id")
                (Pydantic.VStr "dummy-span-id")
                (Some (Pydantic.VStr "dummy-parent-id"))
                sampled false false.

End DummyTraceContext.

(** ** [aiojaeger/spancontext/jaeger.py] *)

Module JaegerConst.

Definition _max_trace_id_bits : Z := 128.
Definition _max_id_bits : Z := 64.
Definition TRACE_ID_HEADER : string := "uber-trace-id".
Definition BAGGAGE_HEADER_PREFIX : string := "uberctx-".
Definition DEBUG_ID_HEADER_KEY : string := "jaeger-debug-id".
Definition BAGGAGE_HEADER_KEY : string := "jaeger-baggage".
Definition MAX_TAG_VALUE_LENGTH : Z := 1024.
Definition MAX_TRACEBACK_LENGTH : Z := 4096.
Definition SAMPLED_FLAG : Z := 1.
Definition DEBUG_FLAG : Z := 2.

(** The local [flags] of [make_trace_id] after the two [if]s. *)
Definition flags_of (c : BaseTraceContext) : Z :=
  let flags := 0 in
  let flags := if debug c then Z.lor flags DEBUG_FLAG else flags in
  let flags :=
    if Py.truthy (sampled c) then Z.lor flags SAMPLED_FLAG else flags in
  flags.

(** [f"{c.trace_id}:{c.span_id}:{c.parent_id}:{flags}"].  The three
    identifiers are strings already; [flags] is an integer between 0 and
    3, far below the digit limit, so that it is written as its decimal
    numeral. *)
Definition make_trace_id (c : BaseTraceContext) : string :=
  trace_id c ++ ":" ++ span_id c ++ ":"
    ++ Py.str_of_optional (parent_id c) ++ ":" ++ Py.decimal (flags_of c).

Definition to_int (s : string) : Py.result Z := Py.int_16 s.

(** [header_trace_id.split(":", 4)] inside its [try]. *)
Definition parts_of (header_trace_id : string) : Py.result (list string) :=
  Py.try_except (Py.Ok (Py.split ":" 4 header_trace_id))
    (fun e => match e with Py.AttributeError => true | _ => false end)
    (Py.Raise Py.ValueError).

Definition parse_trace_id (header_trace_id : string)
  : Py.result (Z * Z * Z * Z) :=
  parts <- parts_of header_trace_id ;;
  if negb (Nat.eqb (List.length parts) 4) then Py.Raise Py.ValueError
  else
    ints <- Py.map_result to_int parts ;;
    match ints with
    | [trace_id; span_id; parent_id; flags] =>
        if (trace_id <=? 0) || (span_id <=? 0) then Py.Raise Py.ValueError
        else if (parent_id <? 0) || (flags <? 0) then Py.Raise Py.ValueError
        else Py.Ok (trace_id, span_id, parent_id, flags)
    | _ => Py.Raise Py.ValueError
    end.

Definition make_headers (context : BaseTraceContext) : Headers :=
  Py.setitem [] TRACE_ID_HEADER (make_trace_id context).

(** The rebinding [headers = {k.lower(): v for k, v in headers.items()}]. *)
Definition lower_keys (headers : Headers) : Headers :=
  Py.map_keys Py.lower headers.

(** The [return JaegerTraceContext(...)] that ends [make_context]; it is
    not inside the [try]. *)
Definition construct (trace_id span_id parent_id flags : Z)
  : Py.result (option BaseTraceContext) :=
  c <- Pydantic.init
         (Pydantic.VInt trace_id)
         (Pydantic.VInt span_id)
         (Some (Pydantic.VInt parent_id))
         (Some (Py.bool_of_int (Z.land flags SAMPLED_FLAG)))
         (Py.bool_of_int (Z.land flags DEBUG_FLAG))
         false ;;
  Py.Ok (Some c).

(** [except (ValueError, KeyError)] also covers the classes derived from
    [ValueError]. *)
Definition make_context (headers : Headers)
  : Py.result (option BaseTraceContext) :=
  let headers := lower_keys headers in
  match (v <- Py.getitem headers TRACE_ID_HEADER ;; parse_trace_id v) with
  | Py.Raise Py.ValueError | Py.Raise Py.ValidationError
  | Py.Raise Py.KeyError => Py.Ok None
  | Py.Raise e => Py.Raise e
  | Py.Ok (trace_id, span_id, parent_id, flags) =>
      construct trace_id span_id parent_id flags
  end.

End JaegerConst.

(** [JaegerTraceContext] forwards both methods to [JaegerConst]. *)
Module JaegerTraceContext.

Definition make_context (headers : Headers)
  : Py.result (option BaseTraceContext) :=
  JaegerConst.make_context headers.

Definition make_headers (self : BaseTraceContext) : Headers :=
  JaegerConst.make_headers self.

End JaegerTraceContext.

(** ** Vocabulary of the specification *)

(** [s.count(sep)]: the number of occurrences of a character. *)
Fixpoint count (sep : ascii) (s : string) : nat :=
  match s with
  | EmptyString => 0%nat
  | String c r => ((if Ascii.eqb c sep then 1 else 0) + count sep r)%nat
  end.

Definition colon_free (s : string) : Prop := count ":" s = 0%nat.

(** The split as the specification words it: a maximum of four resulting
    fields, the first three colons being the delimiters. *)
Definition spec_capped_split (v : string) : list string := Py.split ":" 3 v.

(** The flags field as the specification tabulates it. *)
Definition spec_flags_hex (sampled debug : bool) : string :=
  match sampled, debug with
  | true, false => "1"
  | false, true => "2"
  | true, true => "3"
  | false, false => "0"
  end.

(** A context whose three identifiers do not contain the delimiter; every
    identifier that is a numeral is of this kind. *)
Definition ids_colon_free (c : BaseTraceContext) : Prop :=
  colon_free (trace_id c) /\ colon_free (span_id c)
  /\ colon_free (Py.str_of_optional (parent_id c)).

(** The context with integer identifiers: the instance that a
    construction from integers yields when it succeeds. *)
Definition int_context (t s : Z) (p : option Z) (sa : option bool)
           (d sh : bool) : BaseTraceContext :=
  {| trace_id := Py.decimal t;
     span_id := Py.decimal s;
     parent_id := option_map Py.decimal p;
     sampled := sa;
     debug := d;
     shared := sh |}.

(** A context as [make_context] builds it from four parsed integers. *)
Definition decoded (t s p f : Z) : BaseTraceContext :=
  int_context t s (Some p)
    (Some (Py.bool_of_int (Z.land f JaegerConst.SAMPLED_FLAG)))
    (Py.bool_of_int (Z.land f JaegerConst.DEBUG_FLAG))
    false.

(** None of the three identifiers has more digits than [str()] accepts. *)
Definition within_str_limit (t s p : Z) : bool :=
  negb (Py.exceeds_max_str_digits t || Py.exceeds_max_str_digits s
        || Py.exceeds_max_str_digits p).

(** The value of the last item of [d] whose key, once mapped by [f], is
    [k]: what a lookup finds after the keys have been rewritten. *)
Fixpoint last_value (f : string -> string) (k : string) (d : Py.dict)
  : option string :=
  match d with
  | [] => None
  | (k', v') :: d' =>
      match last_value f k d' with
      | Some v => Some v
      | None => if String.eqb (f k') k then Some v' else None
      end
  end.

(** [format(n, "x")]: the lower-case hexadecimal numeral of the wire
    format, with a minus sign for a negative number. *)
Definition hex (n : Z) : string :=
  HexadecimalString.NilZero.string_of_int (Z.to_hex_int n).

(** The digits of a decimal numeral read in base sixteen, continuing from
    the value [acc] of the digits already read. *)
Fixpoint hexread_acc (d : Decimal.uint) (acc : Z) : Z :=
  match d with
  | Decimal.Nil => acc
  | Decimal.D0 l => hexread_acc l (acc * 16 + 0)
  | Decimal.D1 l => hexread_acc l (acc * 16 + 1)
  | Decimal.D2 l => hexread_acc l (acc * 16 + 2)
  | Decimal.D3 l => hexread_acc l (acc * 16 + 3)
  | Decimal.D4 l => hexread_acc l (acc * 16 + 4)
  | Decimal.D5 l => hexread_acc l (acc * 16 + 5)
  | Decimal.D6 l => hexread_acc l (acc * 16 + 6)
  | Decimal.D7 l => hexread_acc l (acc * 16 + 7)
  | Decimal.D8 l => hexread_acc l (acc * 16 + 8)
  | Decimal.D9 l => hexread_acc l (acc * 16 + 9)
  end.

(** ** Properties of [split] *)

Section Split.

Variable sep : ascii.

Lemma split_length (n : nat) (s : string) :
  List.length (Py.split sep n s) = S (Nat.min n (count sep s)).
Proof.
  revert n; induction s as [|c r IH]; intros n; simpl.
  - now rewrite Nat.min_0_r.
  - destruct n as [|m]; [reflexivity|].
    destruct (Ascii.eqb c sep); simpl.
    + now rewrite IH.
    + specialize (IH (S m)).
      destruct (Py.split sep (S m) r) as [|p ps]; [discriminate IH|].
      exact IH.
Qed.

Lemma split_nonempty (n : nat) (s : string) : Py.split sep n s <> [].
Proof.
  intros E. pose proof (split_length n s) as L.
  rewrite E in L. discriminate L.
Qed.

Lemma split_concat (n : nat) (s : string) :
  String.concat (String sep EmptyString) (Py.split sep n s) = s.
Proof.
  revert n; induction s as [|c r IH]; intros n; [reflexivity|].
  destruct n as [|m]; [reflexivity|].
  cbn [Py.split].
  destruct (Ascii.eqb_spec c sep) as [->|Hne].
  - specialize (IH m). pose proof (split_nonempty m r) as NE.
    destruct (Py.split sep m r) as [|y ys]; [now elim NE|].
    change (String.concat (String sep "") ("" :: y :: ys))
      with ("" ++ String sep "" ++ String.concat (String sep "") (y :: ys)).
    rewrite IH. reflexivity.
  - specialize (IH (S m)). pose proof (split_nonempty (S m) r) as NE.
    destruct (Py.split sep (S m) r) as [|p ps]; [now elim NE|].
    destruct ps as [|q qs].
    + cbn in *. now rewrite IH.
    + change (String.concat (String sep "") (String c p :: q :: qs))
        with (String c (String.concat (String sep "") (p :: q :: qs))).
      now rewrite IH.
Qed.

Lemma split_cut_parts (n : nat) (s : string) :
  Forall (fun p => count sep p = 0%nat) (firstn n (Py.split sep n s)).
Proof.
  revert n; induction s as [|c r IH]; intros n.
  - destruct n; cbn; [constructor|].
    constructor; [reflexivity|]. rewrite firstn_nil. constructor.
  - destruct n as [|m]; [constructor|].
    cbn [Py.split].
    destruct (Ascii.eqb c sep) eqn:E.
    + cbn [firstn]. constructor; [reflexivity | apply IH].
    + specialize (IH (S m)). pose proof (split_nonempty (S m) r) as NE.
      destruct (Py.split sep (S m) r) as [|p ps]; [now elim NE|].
      cbn [firstn] in *. inversion IH as [|? ? Hp Hps]; subst.
      constructor; [|exact Hps]. cbn. now rewrite E, Hp.
Qed.

End Split.

(** ** Which exceptions the parts of the decoder can raise *)

Lemma getitem_raises (d : Py.dict) (k : string) (e : Py.exn) :
  Py.getitem d k = Py.Raise e -> e = Py.KeyError.
Proof.
  induction d as [|[k' v'] d' IH]; simpl.
  - now inversion 1.
  - destruct (String.eqb k' k); [discriminate | exact IH].
Qed.

Lemma int_16_raises (s : string) (e : Py.exn) :
  Py.int_16 s = Py.Raise e -> e = Py.ValueError.
Proof.
  unfold Py.int_16.
  destruct (Py.skip_sign (Py.skip_space s)) as [sign s1].
  destruct (Py.starts_with_underscore (Py.skip_prefix s1)); [now inversion 1|].
  destruct (Py.scan_digits false false 0 (Py.skip_prefix s1))
    as [[[z consumed] rest]|]; [|now inversion 1].
  destruct (negb consumed); [now inversion 1|].
  destruct (Py.skip_space rest); [discriminate | now inversion 1].
Qed.

Lemma map_to_int_raises (xs : list string) (e : Py.exn) :
  Py.map_result JaegerConst.to_int xs = Py.Raise e -> e = Py.ValueError.
Proof.
  induction xs as [|x xs IH]; simpl; [discriminate|].
  unfold JaegerConst.to_int at 1.
  destruct (Py.int_16 x) as [y|e'] eqn:E; simpl.
  - destruct (Py.map_result JaegerConst.to_int xs) as [ys|e'']; simpl;
      [discriminate|].
    intros H; inversion H; subst. now apply IH.
  - intros H; inversion H; subst. now apply int_16_raises in E.
Qed.

Lemma parse_trace_id_raises (v : string) (e : Py.exn) :
  JaegerConst.parse_trace_id v = Py.Raise e -> e = Py.ValueError.
Proof.
  unfold JaegerConst.parse_trace_id, JaegerConst.parts_of; simpl.
  destruct (negb _); [now inversion 1|].
  destruct (Py.map_result JaegerConst.to_int (Py.split ":" 4 v))
    as [ints|e'] eqn:M; simpl.
  - destruct ints as [|t [|s [|p [|f [|]]]]]; try (now inversion 1).
    destruct (_ || _); [now inversion 1|].
    destruct (_ || _); [now inversion 1 | discriminate].
  - intros H; inversion H; subst. now apply map_to_int_raises in M.
Qed.

(** ** What [parse_trace_id] computes *)

Lemma parse_trace_id_wrong_length (v : string) :
  List.length (Py.split ":" 4 v) <> 4%nat ->
  JaegerConst.parse_trace_id v = Py.Raise Py.ValueError.
Proof.
  intros H. unfold JaegerConst.parse_trace_id, JaegerConst.parts_of; simpl.
  destruct (Nat.eqb_spec (List.length (Py.split ":" 4 v)) 4); [contradiction|].
  reflexivity.
Qed.

Lemma parse_trace_id_fields (v a b c d : string) :
  Py.split ":" 4 v = [a; b; c; d] ->
  JaegerConst.parse_trace_id v =
    (t <- JaegerConst.to_int a ;; s <- JaegerConst.to_int b ;;
     p <- JaegerConst.to_int c ;; f <- JaegerConst.to_int d ;;
     if (t <=? 0) || (s <=? 0) then Py.Raise Py.ValueError
     else if (p <? 0) || (f <? 0) then Py.Raise Py.ValueError
     else Py.Ok (t, s, p, f)).
Proof.
  intros H. unfold JaegerConst.parse_trace_id, JaegerConst.parts_of; simpl.
  rewrite H; simpl.
  destruct (JaegerConst.to_int a); simpl; [|reflexivity].
  destruct (JaegerConst.to_int b); simpl; [|reflexivity].
  destruct (JaegerConst.to_int c); simpl; [|reflexivity].
  destruct (JaegerConst.to_int d); simpl; reflexivity.
Qed.

Lemma parse_trace_id_ok (v : string) (t s p f : Z) :
  JaegerConst.parse_trace_id v = Py.Ok (t, s, p, f) ->
  exists a b c d,
    Py.split ":" 4 v = [a; b; c; d]
    /\ JaegerConst.to_int a = Py.Ok t /\ JaegerConst.to_int b = Py.Ok s
    /\ JaegerConst.to_int c = Py.Ok p /\ JaegerConst.to_int d = Py.Ok f
    /\ 0 < t /\ 0 < s /\ 0 <= p /\ 0 <= f.
Proof.
  intros H.
  destruct (Nat.eq_dec (List.length (Py.split ":" 4 v)) 4) as [L|L].
  - destruct (Py.split ":" 4 v) as [|a [|b [|c [|d [|]]]]] eqn:E;
      try discriminate L.
    rewrite (parse_trace_id_fields v a b c d E) in H.
    exists a, b, c, d.
    destruct (JaegerConst.to_int a) as [t'|]; simpl in H; [|discriminate].
    destruct (JaegerConst.to_int b) as [s'|]; simpl in H; [|discriminate].
    destruct (JaegerConst.to_int c) as [p'|]; simpl in H; [|discriminate].
    destruct (JaegerConst.to_int d) as [f'|]; simpl in H; [|discriminate].
    destruct (orb (t' <=? 0) (s' <=? 0)) eqn:G1; [discriminate|].
    destruct (orb (p' <? 0) (f' <? 0)) eqn:G2; [discriminate|].
    inversion H; subst.
    apply orb_false_elim in G1 as [G1a G1b].
    apply orb_false_elim in G2 as [G2a G2b].
    repeat split; trivial; lia.
  - rewrite parse_trace_id_wrong_length in H by assumption. discriminate.
Qed.

(** ** What [make_context] computes *)

Lemma make_context_missing (headers : Headers) (e : Py.exn) :
  Py.getitem (JaegerConst.lower_keys headers) JaegerConst.TRACE_ID_HEADER
    = Py.Raise e ->
  JaegerConst.make_context headers = Py.Ok None.
Proof.
  intros H. pose proof (getitem_raises _ _ _ H) as ->.
  unfold JaegerConst.make_context. now rewrite H.
Qed.

Lemma make_context_present (headers : Headers) (v : string) :
  Py.getitem (JaegerConst.lower_keys headers) JaegerConst.TRACE_ID_HEADER
    = Py.Ok v ->
  JaegerConst.make_context headers =
    match JaegerConst.parse_trace_id v with
    | Py.Ok (t, s, p, f) => JaegerConst.construct t s p f
    | Py.Raise _ => Py.Ok None
    end.
Proof.
  intros H. unfold JaegerConst.make_context. rewrite H; simpl.
  destruct (JaegerConst.parse_trace_id v) as [[[[t s] p] f]|e] eqn:P.
  - reflexivity.
  - now rewrite (parse_trace_id_raises v e P).
Qed.

Lemma make_context_rejects (headers : Headers) (v : string) :
  Py.getitem (JaegerConst.lower_keys headers) JaegerConst.TRACE_ID_HEADER
    = Py.Ok v ->
  JaegerConst.parse_trace_id v = Py.Raise Py.ValueError ->
  JaegerConst.make_context headers = Py.Ok None.
Proof.
  intros H P. now rewrite (make_context_present headers v H), P.
Qed.

(** ** Counting the delimiter *)

Lemma count_app (sep : ascii) (s1 s2 : string) :
  count sep (s1 ++ s2) = (count sep s1 + count sep s2)%nat.
Proof.
  induction s1 as [|c r IH]; simpl; [reflexivity|].
  rewrite IH. lia.
Qed.

Lemma string_of_uint_colon_free (d : Decimal.uint) :
  colon_free (NilEmpty.string_of_uint d).
Proof.
  unfold colon_free. induction d; simpl; auto.
Qed.

Lemma str_colon_free (n : Z) : colon_free (Py.decimal n).
Proof.
  unfold Py.decimal, NilZero.string_of_int, NilZero.string_of_uint, colon_free.
  destruct (Z.to_int n) as [d|d].
  - destruct d; try reflexivity; apply string_of_uint_colon_free.
  - change (count ":" (String "-" ?s)) with (count ":" s).
    destruct d; try reflexivity; apply string_of_uint_colon_free.
Qed.

(** Contexts built from integer identifiers, with or without a parent, and
    in particular those the decoder returns, have colon-free identifiers. *)
Lemma int_ids_colon_free (t s : Z) (p : option Z) (sa : option bool)
      (d sh : bool) :
  ids_colon_free (int_context t s p sa d sh).
Proof.
  repeat split; try apply str_colon_free.
  destruct p as [p|]; [apply str_colon_free | reflexivity].
Qed.

(** ** Construction from integers *)

Lemma str_cases (n : Z) :
  (Py.exceeds_max_str_digits n = false /\ Py.str n = Py.Ok (Py.decimal n))
  \/ (Py.exceeds_max_str_digits n = true
      /\ Py.str n = Py.Raise Py.ValueError).
Proof.
  unfold Py.str. destruct (Py.exceeds_max_str_digits n); auto.
Qed.

(** A construction from integers yields the context with these integers
    as identifiers when all of them are within the digit limit, and
    raises [ValidationError] when one of them is not. *)
Lemma init_int (t s : Z) (p : option Z) (sa : option bool) (d sh : bool) :
  Pydantic.init (Pydantic.VInt t) (Pydantic.VInt s)
    (option_map Pydantic.VInt p) sa d sh =
  if Py.exceeds_max_str_digits t || Py.exceeds_max_str_digits s
     || match p with
        | Some n => Py.exceeds_max_str_digits n
        | None => false
        end
  then Py.Raise Py.ValidationError
  else Py.Ok (int_context t s p sa d sh).
Proof.
  unfold Pydantic.init, Pydantic.optional_str_validator,
    Pydantic.str_validator, int_context.
  destruct (str_cases t) as [[Et ->]|[Et ->]]; rewrite Et;
    [|reflexivity].
  destruct (str_cases s) as [[Es ->]|[Es ->]]; rewrite Es;
    [|reflexivity].
  destruct p as [p|]; [|reflexivity]. cbn [option_map].
  destruct (str_cases p) as [[Ep ->]|[Ep ->]]; rewrite Ep; reflexivity.
Qed.

Lemma construct_cases (t s p f : Z) :
  JaegerConst.construct t s p f =
    if within_str_limit t s p then Py.Ok (Some (decoded t s p f))
    else Py.Raise Py.ValidationError.
Proof.
  unfold JaegerConst.construct, within_str_limit, decoded.
  rewrite (init_int t s (Some p)).
  destruct (_ || _ || _); reflexivity.
Qed.

Lemma construct_small (t s p f : Z) :
  within_str_limit t s p = true ->
  JaegerConst.construct t s p f = Py.Ok (Some (decoded t s p f)).
Proof.
  intros H. now rewrite construct_cases, H.
Qed.

Lemma decoded_ids_colon_free (t s p f : Z) : ids_colon_free (decoded t s p f).
Proof.
  exact (int_ids_colon_free t s (Some p) _ _ _).
Qed.

Lemma make_trace_id_colons (c : BaseTraceContext) :
  count ":" (JaegerConst.make_trace_id c) =
    (3 + count ":" (trace_id c) + count ":" (span_id c)
     + count ":" (Py.str_of_optional (parent_id c)))%nat.
Proof.
  unfold JaegerConst.make_trace_id.
  rewrite !count_app, (str_colon_free (JaegerConst.flags_of c)).
  simpl. lia.
Qed.

Lemma make_headers_shape (c : BaseTraceContext) :
  ids_colon_free c ->
  exists v,
    JaegerConst.make_headers c = [(JaegerConst.TRACE_ID_HEADER, v)]
    /\ v = String.concat ":"
             [trace_id c; span_id c; Py.str_of_optional (parent_id c);
              Py.decimal (JaegerConst.flags_of c)]
    /\ count ":" v = 3%nat.
Proof.
  intros (Ht & Hs & Hp). exists (JaegerConst.make_trace_id c).
  repeat split.
  rewrite make_trace_id_colons. unfold colon_free in *. lia.
Qed.

(** ** The round trip outside the claims

    What decoding an encoded context does in general, and the range on
    which it gives the context back: identifiers of one decimal digit,
    which read the same in base ten and in base sixteen. *)

Lemma split_whole (n : nat) (a : string) :
  colon_free a -> Py.split ":" n a = [a].
Proof.
  unfold colon_free. revert n; induction a as [|c r IH]; intros n H.
  - reflexivity.
  - destruct n as [|m]; [reflexivity|]. cbn [Py.split]. cbn [count] in H.
    destruct (Ascii.eqb c ":"); [discriminate H|].
    now rewrite (IH (S m) H).
Qed.

Lemma split_first (n : nat) (a r : string) :
  colon_free a ->
  Py.split ":" (S n) (a ++ String ":" r) = a :: Py.split ":" n r.
Proof.
  unfold colon_free. induction a as [|c a' IH]; intros H.
  - reflexivity.
  - cbn [append Py.split]. cbn [count] in H.
    destruct (Ascii.eqb c ":"); [discriminate H|].
    now rewrite (IH H).
Qed.

Lemma split_make_trace_id (c : BaseTraceContext) :
  ids_colon_free c ->
  Py.split ":" 4 (JaegerConst.make_trace_id c) =
    [trace_id c; span_id c; Py.str_of_optional (parent_id c);
     Py.decimal (JaegerConst.flags_of c)].
Proof.
  intros (Ht & Hs & Hp). unfold JaegerConst.make_trace_id.
  cbn [append].
  rewrite (split_first 3 _ _ Ht), (split_first 2 _ _ Hs),
          (split_first 1 _ _ Hp).
  now rewrite (split_whole 1 _ (str_colon_free _)).
Qed.

Lemma flags_of_range (c : BaseTraceContext) :
  JaegerConst.flags_of c =
    (if Py.truthy (sampled c) then 1 else 0) + (if debug c then 2 else 0).
Proof.
  unfold JaegerConst.flags_of. now destruct (debug c), (Py.truthy (sampled c)).
Qed.

Lemma to_int_flags (c : BaseTraceContext) :
  JaegerConst.to_int (Py.decimal (JaegerConst.flags_of c))
    = Py.Ok (JaegerConst.flags_of c).
Proof.
  rewrite flags_of_range.
  now destruct (debug c), (Py.truthy (sampled c)).
Qed.

(** [str(flags)] never raises: it is the numeral [make_trace_id] writes. *)
Lemma str_flags (c : BaseTraceContext) :
  Py.str (JaegerConst.flags_of c)
    = Py.Ok (Py.decimal (JaegerConst.flags_of c)).
Proof.
  rewrite flags_of_range.
  now destruct (debug c), (Py.truthy (sampled c)).
Qed.

Lemma to_int_digit (n : Z) :
  0 <= n < 10 -> JaegerConst.to_int (Py.decimal n) = Py.Ok n.
Proof.
  intros H. destruct n as [|q|q]; [reflexivity | | lia].
  do 4 (try (destruct q as [q|q|]; try reflexivity; try lia)).
Qed.

(** Decoding what [make_headers] wrote reads the three identifiers back in
    base sixteen and applies the decoder's range checks to them. *)
Lemma make_context_make_headers (c : BaseTraceContext) :
  ids_colon_free c ->
  JaegerConst.make_context (JaegerConst.make_headers c) =
    match (t <- JaegerConst.to_int (trace_id c) ;;
           s <- JaegerConst.to_int (span_id c) ;;
           p <- JaegerConst.to_int (Py.str_of_optional (parent_id c)) ;;
           Py.Ok (t, s, p)) with
    | Py.Ok (t, s, p) =>
        if (t <=? 0) || (s <=? 0) || (p <? 0) then Py.Ok None
        else JaegerConst.construct t s p (JaegerConst.flags_of c)
    | Py.Raise _ => Py.Ok None
    end.
Proof.
  intros H.
  assert (G : Py.getitem (JaegerConst.lower_keys (JaegerConst.make_headers c))
                JaegerConst.TRACE_ID_HEADER
              = Py.Ok (JaegerConst.make_trace_id c)) by reflexivity.
  rewrite (make_context_present _ _ G).
  rewrite (parse_trace_id_fields _ _ _ _ _ (split_make_trace_id c H)).
  rewrite to_int_flags.
  destruct (JaegerConst.to_int (trace_id c)) as [t|]; simpl; [|reflexivity].
  destruct (JaegerConst.to_int (span_id c)) as [s|]; simpl; [|reflexivity].
  destruct (JaegerConst.to_int (Py.str_of_optional (parent_id c))) as [p|];
    simpl; [|reflexivity].
  assert (F : (JaegerConst.flags_of c <? 0) = false).
  { rewrite flags_of_range.
    now destruct (debug c), (Py.truthy (sampled c)). }
  rewrite F, orb_false_r.
  destruct (t <=? 0), (s <=? 0), (p <? 0); reflexivity.
Qed.

(** On identifiers of one digit the round trip holds: every field but
    [shared] comes back, and [shared] comes back false. *)
Lemma exceeds_digit (n : Z) :
  0 <= n < 10 -> Py.exceeds_max_str_digits n = false.
Proof.
  intros H. destruct n as [|q|q]; [reflexivity | | lia].
  do 4 (try (destruct q as [q|q|]; try reflexivity; try lia)).
Qed.

Lemma roundtrip_one_digit (t s p : Z) (sa d sh : bool) :
  0 < t < 10 -> 0 < s < 10 -> 0 <= p < 10 ->
  JaegerConst.make_context
    (JaegerConst.make_headers (int_context t s (Some p) (Some sa) d sh))
  = Py.Ok (Some (int_context t s (Some p) (Some sa) d false)).
Proof.
  intros Ht Hs Hp.
  rewrite make_context_make_headers
    by exact (int_ids_colon_free t s (Some p) (Some sa) d sh).
  cbn [trace_id span_id parent_id int_context option_map
       Py.str_of_optional].
  rewrite !to_int_digit by lia. cbn [Py.bind].
  destruct (Z.leb_spec t 0); [lia|].
  destruct (Z.leb_spec s 0); [lia|].
  destruct (Z.ltb_spec p 0); [lia|].
  cbn [orb]. rewrite construct_small
    by (unfold within_str_limit; rewrite !exceeds_digit by lia; reflexivity).
  unfold decoded. do 3 f_equal.
  - rewrite flags_of_range; cbn. now destruct sa, d.
  - rewrite flags_of_range; cbn. now destruct sa, d.
Qed.

(** * The claims *)



(** C3, counterexample.  On the value [1:2:3:4:5] the decoder's split
    returns five parts, cut at the first four colons, where the split of
    the specification returns four, the last being [4:5]. *)
Lemma capped_split_five_parts :
  JaegerConst.parts_of "1:2:3:4:5" = Py.Ok ["1"; "2"; "3"; "4"; "5"]
  /\ spec_capped_split "1:2:3:4:5" = ["1"; "2"; "3"; "4:5"]
  /\ ~ (List.length ["1"; "2"; "3"; "4"; "5"] <= 4)%nat.
Proof.
  repeat split. simpl. lia.
Qed.

(** C3, amended.  The decoder cuts the header value at its first four
    colons, into at most five parts, what follows the fourth colon being
    the fifth part; joining the parts with colons gives the value back.
    It returns [None] unless exactly four parts result, that is unless the
    value has exactly three colons. *)
Theorem capped_split_five (headers : Headers) (v : string) :
  Py.getitem (JaegerConst.lower_keys headers) JaegerConst.TRACE_ID_HEADER
    = Py.Ok v ->
  let parts := Py.split ":" 4 v in
  JaegerConst.parts_of v = Py.Ok parts
  /\ List.length parts = S (Nat.min 4 (count ":" v))
  /\ (List.length parts <= 5)%nat
  /\ String.concat ":" parts = v
  /\ Forall colon_free (firstn 4 parts)
  /\ (List.length parts <> 4%nat ->
      JaegerConst.make_context headers = Py.Ok None)
  /\ (count ":" v <> 3%nat ->
      JaegerConst.make_context headers = Py.Ok None).
Proof.
  intros G parts.
  assert (L : List.length parts = S (Nat.min 4 (count ":" v)))
    by apply split_length.
  assert (R : List.length parts <> 4%nat ->
              JaegerConst.make_context headers = Py.Ok None).
  { intros N. apply (make_context_rejects headers v G).
    now apply parse_trace_id_wrong_length. }
  repeat split.
  - exact L.
  - lia.
  - apply split_concat.
  - apply split_cut_parts.
  - exact R.
  - intros N. apply R. lia.
Qed.

Lemma capped_split_five_witness :
  Py.getitem (JaegerConst.lower_keys [("Uber-Trace-Id", "1:2:3:4:5")])
             JaegerConst.TRACE_ID_HEADER = Py.Ok "1:2:3:4:5"
  /\ JaegerConst.make_context [("Uber-Trace-Id", "1:2:3:4:5")] = Py.Ok None.
Proof.
  split; [reflexivity|].
  apply (capped_split_five [("Uber-Trace-Id", "1:2:3:4:5")] "1:2:3:4:5"
           eq_refl).
  simpl. lia.
Defined.

(** C4. Malformed input is rejected: the four header mappings of the
    specification decode to [None], and so does every mapping whose
    [uber-trace-id] value splits into four fields of which the span
    identifier parses to zero or one of the three identifiers parses to a
    negative number. *)
Theorem make_context_rejects_malformed :
  JaegerConst.make_context [("uber-trace-id", "1:2:3")] = Py.Ok None
  /\ JaegerConst.make_context [("uber-trace-id", "0:2:3:1")] = Py.Ok None
  /\ JaegerConst.make_context [("uber-trace-id", "g:2:3:1")] = Py.Ok None
  /\ JaegerConst.make_context [] = Py.Ok None
  /\ forall (headers : Headers) (v a b c d : string),
       Py.getitem (JaegerConst.lower_keys headers) JaegerConst.TRACE_ID_HEADER
         = Py.Ok v ->
       Py.split ":" 4 v = [a; b; c; d] ->
       (JaegerConst.to_int b = Py.Ok 0
        \/ exists n, n < 0
             /\ (JaegerConst.to_int a = Py.Ok n
                 \/ JaegerConst.to_int b = Py.Ok n
                 \/ JaegerConst.to_int c = Py.Ok n)) ->
       JaegerConst.make_context headers = Py.Ok None.
Proof.
  repeat split.
  intros headers v a b c d G E H.
  rewrite (make_context_present headers v G),
          (parse_trace_id_fields v a b c d E).
  destruct (JaegerConst.to_int a) as [t|]; simpl; [|reflexivity].
  destruct (JaegerConst.to_int b) as [s|]; simpl; [|reflexivity].
  destruct (JaegerConst.to_int c) as [p|]; simpl; [|reflexivity].
  destruct (JaegerConst.to_int d) as [f|]; simpl; [|reflexivity].
  destruct (Z.leb_spec t 0), (Z.leb_spec s 0); simpl; try reflexivity.
  destruct (Z.ltb_spec p 0); simpl; try reflexivity.
  exfalso.
  destruct H as [H | (n & Hn & [H | [H | H]])]; inversion H; subst; lia.
Qed.

Lemma make_context_rejects_malformed_witness :
  Py.getitem (JaegerConst.lower_keys [("uber-trace-id", "1:2:-3:1")])
             JaegerConst.TRACE_ID_HEADER = Py.Ok "1:2:-3:1"
  /\ Py.split ":" 4 "1:2:-3:1" = ["1"; "2"; "-3"; "1"]
  /\ JaegerConst.to_int "-3" = Py.Ok (-3)
  /\ JaegerConst.make_context [("uber-trace-id", "1:2:-3:1")] = Py.Ok None.
Proof.
  split; [reflexivity|]. split; [reflexivity|]. split; [reflexivity|].
  destruct make_context_rejects_malformed as (_ & _ & _ & _ & G).
  apply (G [("uber-trace-id", "1:2:-3:1")] "1:2:-3:1" "1" "2" "-3" "1");
    [reflexivity | reflexivity |].
  right. exists (-3). split; [lia|]. right; right. reflexivity.
Defined.

(** C5. Flag bits on encoding: the value emitted for a context is its
    three identifiers followed by a flags field that reads [1] for
    sampled only, [2] for debug only, [3] for both and [0] for neither;
    bit 0 of the flags is set exactly when the context is sampled, bit 1
    exactly when it is a debug context, and no other bit is set. *)
Theorem make_trace_id_flags (c : BaseTraceContext) :
  Py.getitem (JaegerConst.make_headers c) JaegerConst.TRACE_ID_HEADER
    = Py.Ok (String.concat ":"
               [trace_id c; span_id c; Py.str_of_optional (parent_id c);
                spec_flags_hex (Py.truthy (sampled c)) (debug c)])
  /\ Py.str (JaegerConst.flags_of c)
       = Py.Ok (spec_flags_hex (Py.truthy (sampled c)) (debug c))
  /\ Z.testbit (JaegerConst.flags_of c) 0 = Py.truthy (sampled c)
  /\ Z.testbit (JaegerConst.flags_of c) 1 = debug c
  /\ 0 <= JaegerConst.flags_of c <= 3.
Proof.
  destruct c as [tid sid pid sa d sh].
  unfold JaegerConst.make_headers, JaegerConst.make_trace_id.
  rewrite flags_of_range; simpl.
  destruct (Py.truthy sa), d; simpl; repeat split; lia.
Qed.

(** C6. The concrete scenario: the header [1:2:0:3] decodes to the context
    with trace 1, span 2, parent 0, sampled, debug and not shared, and
    that context encodes to the same single header. *)
Theorem scenario_1_2_0_3 :
  let c := int_context 1 2 (Some 0) (Some true) true false in
  Pydantic.init (Pydantic.VInt 1) (Pydantic.VInt 2)
    (Some (Pydantic.VInt 0)) (Some true) true false = Py.Ok c
  /\ JaegerConst.make_context [("uber-trace-id", "1:2:0:3")] = Py.Ok (Some c)
  /\ trace_id c = "1" /\ span_id c = "2" /\ parent_id c = Some "0"
  /\ sampled c = Some true /\ debug c = true /\ shared c = false
  /\ JaegerConst.make_headers c = [("uber-trace-id", "1:2:0:3")].
Proof.
  cbv zeta. repeat split.
Qed.

(** C7. Encoding is total and has a fixed shape: for every context whose
    identifiers do not contain a colon (as is the case for every numeral)
    [make_headers] returns a mapping with the one key [uber-trace-id],
    whose value is the trace, span and parent identifiers and the flags
    joined by exactly three colons. *)
Theorem make_headers_total_shape (c : BaseTraceContext) :
  ids_colon_free c ->
  exists v,
    JaegerConst.make_headers c = [("uber-trace-id", v)]
    /\ JaegerConst.make_headers c <> []
    /\ v = String.concat ":"
             [trace_id c; span_id c; Py.str_of_optional (parent_id c);
              Py.decimal (JaegerConst.flags_of c)]
    /\ Py.str (JaegerConst.flags_of c)
         = Py.Ok (Py.decimal (JaegerConst.flags_of c))
    /\ count ":" v = 3%nat.
Proof.
  intros H. destruct (make_headers_shape c H) as (v & E & V & N).
  pose proof (str_flags c) as F.
  exists v. repeat split; try assumption.
  rewrite E. discriminate.
Qed.

Lemma make_headers_total_shape_witness :
  ids_colon_free (decoded 1 2 0 3)
  /\ exists v,
       JaegerConst.make_headers (decoded 1 2 0 3) = [("uber-trace-id", v)]
       /\ JaegerConst.make_headers (decoded 1 2 0 3) <> []
       /\ v = String.concat ":"
                [trace_id (decoded 1 2 0 3); span_id (decoded 1 2 0 3);
                 Py.str_of_optional (parent_id (decoded 1 2 0 3));
                 Py.decimal (JaegerConst.flags_of (decoded 1 2 0 3))]
       /\ Py.str (JaegerConst.flags_of (decoded 1 2 0 3))
            = Py.Ok (Py.decimal (JaegerConst.flags_of (decoded 1 2 0 3)))
       /\ count ":" v = 3%nat.
Proof.
  assert (H : ids_colon_free (decoded 1 2 0 3))
    by (split; [reflexivity | split; reflexivity]).
  split; [exact H|].
  exact (make_headers_total_shape (decoded 1 2 0 3) H).
Defined.

(** C8. The header name is looked up without regard to case: a mapping
    whose only key lowers to [uber-trace-id] decodes exactly as the
    mapping with the lower-case key and the same value. *)
Theorem make_context_case_insensitive (k v : string) :
  Py.lower k = JaegerConst.TRACE_ID_HEADER ->
  JaegerConst.make_context [(k, v)]
    = JaegerConst.make_context [(JaegerConst.TRACE_ID_HEADER, v)].
Proof.
  intros H. unfold JaegerConst.make_context, JaegerConst.lower_keys,
    Py.map_keys. simpl. rewrite H. reflexivity.
Qed.

Lemma make_context_case_insensitive_witness :
  Py.lower "Uber-Trace-Id" = JaegerConst.TRACE_ID_HEADER
  /\ JaegerConst.make_context [("Uber-Trace-Id", "1:2:0:1")]
       = JaegerConst.make_context [("uber-trace-id", "1:2:0:1")]
  /\ JaegerConst.make_context [("uber-trace-id", "1:2:0:1")]
       = Py.Ok (Some (decoded 1 2 0 1)).
Proof.
  split; [reflexivity|]. split; [|reflexivity].
  exact (make_context_case_insensitive "Uber-Trace-Id" "1:2:0:1" eq_refl).
Defined.

(** C9. The dummy codec: [make_context] returns the same fixed context
    whatever the headers are, with the three dummy identifiers, neither
    debug nor shared, and sampled as the caller says, or true when the
    caller says nothing; [make_headers] is the empty mapping. *)
Theorem dummy_codec (headers : Headers) (sampled_arg : option (option bool)) :
  exists c,
  DummyTraceContext.make_context headers sampled_arg = Py.Ok c
  /\ DummyTraceContext.make_context [] sampled_arg = Py.Ok c
  /\ trace_id c = "dummy-trace-id"
  /\ span_id c = "dummy-span-id"
  /\ parent_id c = Some "dummy-parent-id"
  /\ debug c = false
  /\ shared c = false
  /\ (forall given, sampled_arg = Some given -> sampled c = given)
  /\ (sampled_arg = None -> sampled c = Some true)
  /\ DummyTraceContext.make_headers = [].
Proof.
  exists {| trace_id := "dummy-trace-id";
            span_id := "dummy-span-id";
            parent_id := Some "dummy-parent-id";
            sampled := match sampled_arg with
                       | Some given => given
                       | None => Some true
                       end;
            debug := false;
            shared := false |}.
  repeat split.
  - intros given ->. reflexivity.
  - intros ->. reflexivity.
Qed.

Lemma dummy_codec_witness :
  (exists c,
     DummyTraceContext.make_context
       [("uber-trace-id", "1:2:0:3")] (Some (Some false)) = Py.Ok c
     /\ sampled c = Some false)
  /\ (exists c,
        DummyTraceContext.make_context
          [("uber-trace-id", "1:2:0:3")] None = Py.Ok c
        /\ sampled c = Some true).
Proof.
  split.
  - destruct (dummy_codec [("uber-trace-id", "1:2:0:3")] (Some (Some false)))
      as (c & E & _ & _ & _ & _ & _ & _ & G & _).
    exists c. split; [exact E | exact (G (Some false) eq_refl)].
  - destruct (dummy_codec [("uber-trace-id", "1:2:0:3")] None)
      as (c & E & _ & _ & _ & _ & _ & _ & _ & G & _).
    exists c. split; [exact E | exact (G eq_refl)].
Defined.

(** C10. Hexadecimal fields are read leniently: a [0x] or [0X] prefix, a
    leading sign, surrounding white space and upper-case digits are all
    accepted, so that the header [0X1:+2: 3 :1] decodes to the context
    with trace 1, span 2 and parent 3. *)
Theorem lenient_hex_fields :
  JaegerConst.make_context [("uber-trace-id", "0X1:+2: 3 :1")]
    = Py.Ok (Some (int_context 1 2 (Some 3) (Some true) false false))
  /\ Pydantic.init (Pydantic.VInt 1) (Pydantic.VInt 2)
       (Some (Pydantic.VInt 3)) (Some true) false false
     = Py.Ok (int_context 1 2 (Some 3) (Some true) false false)
  /\ JaegerConst.to_int "0X1" = Py.Ok 1
  /\ JaegerConst.to_int "0x1" = Py.Ok 1
  /\ JaegerConst.to_int "+2" = Py.Ok 2
  /\ JaegerConst.to_int "-2" = Py.Ok (-2)
  /\ JaegerConst.to_int " 3 " = Py.Ok 3
  /\ JaegerConst.to_int "AB" = Py.Ok 171
  /\ JaegerConst.make_context [("uber-trace-id", "A:b:-0:1")]
       = Py.Ok (Some (decoded 10 11 0 1)).
Proof.
  repeat split.
Qed.

(** C1. The round trip breaks at the trace identifier ten.  The header
    [a:1:0:1] decodes to the context with trace 10, span 1 and parent 0;
    that context encodes to [10:1:0:1], the identifiers being written in
    decimal, and decoding this header reads them in base sixteen and
    returns the trace identifier 16. *)
Theorem roundtrip_breaks_at_ten :
  let c := int_context 10 1 (Some 0) (Some true) false false in
  let c' := int_context 16 1 (Some 0) (Some true) false false in
  Pydantic.init (Pydantic.VInt 10) (Pydantic.VInt 1)
    (Some (Pydantic.VInt 0)) (Some true) false false = Py.Ok c
  /\ Pydantic.init (Pydantic.VInt 16) (Pydantic.VInt 1)
       (Some (Pydantic.VInt 0)) (Some true) false false = Py.Ok c'
  /\ JaegerConst.make_context [("uber-trace-id", "a:1:0:1")] = Py.Ok (Some c)
  /\ JaegerConst.make_headers c = [("uber-trace-id", "10:1:0:1")]
  /\ JaegerConst.make_context (JaegerConst.make_headers c) = Py.Ok (Some c')
  /\ trace_id c = "10" /\ trace_id c' = "16"
  /\ trace_id c' <> trace_id c.
Proof.
  cbv zeta. repeat split. discriminate.
Qed.


(** * Further properties of the code *)

(** ** Which header entry the decoder reads *)

Lemma getitem_setitem (d : Py.dict) (k1 v k : string) :
  Py.getitem (Py.setitem d k1 v) k =
    if String.eqb k1 k then Py.Ok v else Py.getitem d k.
Proof.
  induction d as [|[k' v'] d' IH]; simpl.
  - reflexivity.
  - destruct (String.eqb_spec k' k1) as [->|N1]; simpl.
    + destruct (String.eqb k1 k); reflexivity.
    + rewrite IH.
      destruct (String.eqb_spec k' k) as [->|N2];
        destruct (String.eqb_spec k1 k) as [->|N3];
        try reflexivity; congruence.
Qed.

Lemma getitem_fold_setitem (f : string -> string) (k : string)
      (d acc : Py.dict) :
  Py.getitem
    (fold_left (fun a kv => Py.setitem a (f (fst kv)) (snd kv)) d acc) k =
    match last_value f k d with
    | Some v => Py.Ok v
    | None => Py.getitem acc k
    end.
Proof.
  revert acc; induction d as [|[k' v'] d' IH]; intros acc; simpl.
  - reflexivity.
  - rewrite IH. destruct (last_value f k d'); [reflexivity|].
    rewrite getitem_setitem. simpl.
    destruct (String.eqb (f k') k); reflexivity.
Qed.

Lemma getitem_lower_keys (headers : Headers) (k : string) :
  Py.getitem (JaegerConst.lower_keys headers) k =
    match last_value Py.lower k headers with
    | Some v => Py.Ok v
    | None => Py.Raise Py.KeyError
    end.
Proof.
  unfold JaegerConst.lower_keys, Py.map_keys.
  rewrite getitem_fold_setitem. reflexivity.
Qed.

Lemma last_value_none (f : string -> string) (k : string) (d : Py.dict) :
  Forall (fun kv => f (fst kv) <> k) d -> last_value f k d = None.
Proof.
  induction 1 as [|[k' v'] d' H _ IH]; simpl; [reflexivity|].
  rewrite IH. simpl in H.
  destruct (String.eqb_spec (f k') k); [contradiction | reflexivity].
Qed.

(** X1. Of all the entries of the mapping only the last one whose name
    lowers to [uber-trace-id] is read: the mapping decodes as the mapping
    that holds this one entry, and to [None] when there is no such entry.
    Entries under other names, and earlier spellings of the name, have no
    effect. *)
Theorem make_context_reads_last_entry (headers : Headers) :
  JaegerConst.make_context headers =
    match last_value Py.lower JaegerConst.TRACE_ID_HEADER headers with
    | Some v => JaegerConst.make_context [(JaegerConst.TRACE_ID_HEADER, v)]
    | None => Py.Ok None
    end.
Proof.
  pose proof (getitem_lower_keys headers JaegerConst.TRACE_ID_HEADER) as G.
  destruct (last_value Py.lower JaegerConst.TRACE_ID_HEADER headers) as [v|].
  - rewrite (make_context_present headers v G).
    symmetry. now apply make_context_present.
  - exact (make_context_missing headers _ G).
Qed.

(** X2. A mapping none of whose names lowers to [uber-trace-id] decodes
    to [None], whatever else it holds. *)
Theorem make_context_without_header (headers : Headers) :
  Forall (fun kv => Py.lower (fst kv) <> JaegerConst.TRACE_ID_HEADER) headers ->
  JaegerConst.make_context headers = Py.Ok None.
Proof.
  intros H.
  pose proof (getitem_lower_keys headers JaegerConst.TRACE_ID_HEADER) as G.
  rewrite (last_value_none _ _ _ H) in G.
  exact (make_context_missing headers _ G).
Qed.

Lemma make_context_without_header_witness :
  Forall (fun kv => Py.lower (fst kv) <> JaegerConst.TRACE_ID_HEADER)
         [("uberctx-user", "1:2:0:1"); ("Jaeger-Debug-Id", "7")]
  /\ JaegerConst.make_context
       [("uberctx-user", "1:2:0:1"); ("Jaeger-Debug-Id", "7")] = Py.Ok None.
Proof.
  assert (H : Forall
                (fun kv => Py.lower (fst kv) <> JaegerConst.TRACE_ID_HEADER)
                [("uberctx-user", "1:2:0:1"); ("Jaeger-Debug-Id", "7")]).
  { constructor; [discriminate|]. constructor; [discriminate|]. constructor. }
  split; [exact H|].
  exact (make_context_without_header _ H).
Defined.

(** ** Exactly which values the decoder accepts *)

Lemma parse_trace_id_three_colons (v : string) (r : Z * Z * Z * Z) :
  JaegerConst.parse_trace_id v = Py.Ok r -> count ":" v = 3%nat.
Proof.
  intros H.
  destruct (Nat.eq_dec (List.length (Py.split ":" 4 v)) 4) as [L|L].
  - rewrite split_length in L. lia.
  - rewrite (parse_trace_id_wrong_length v L) in H. discriminate.
Qed.

(** X3. [parse_trace_id] returns [(t, s, p, f)] exactly when the value
    splits at its colons into four fields that [to_int] reads as [t], [s],
    [p] and [f], with [t] and [s] positive and [p] and [f] not negative. *)
Theorem parse_trace_id_accepts_iff (v : string) (t s p f : Z) :
  JaegerConst.parse_trace_id v = Py.Ok (t, s, p, f)
  <-> exists a b c d,
        Py.split ":" 4 v = [a; b; c; d]
        /\ JaegerConst.to_int a = Py.Ok t /\ JaegerConst.to_int b = Py.Ok s
        /\ JaegerConst.to_int c = Py.Ok p /\ JaegerConst.to_int d = Py.Ok f
        /\ 0 < t /\ 0 < s /\ 0 <= p /\ 0 <= f.
Proof.
  split.
  - apply parse_trace_id_ok.
  - intros (a & b & c & d & E & Ha & Hb & Hc & Hd & Ht & Hs & Hp & Hf).
    rewrite (parse_trace_id_fields v a b c d E), Ha, Hb, Hc, Hd. simpl.
    destruct (Z.leb_spec t 0); [lia|]. destruct (Z.leb_spec s 0); [lia|].
    destruct (Z.ltb_spec p 0); [lia|]. destruct (Z.ltb_spec f 0); [lia|].
    reflexivity.
Qed.

Lemma parse_trace_id_accepts_iff_witness :
  JaegerConst.parse_trace_id "A:0xb: c :+3" = Py.Ok (10, 11, 12, 3).
Proof.
  apply (proj2 (parse_trace_id_accepts_iff "A:0xb: c :+3" 10 11 12 3)).
  exists "A", "0xb", " c ", "+3".
  split; [reflexivity|]. split; [reflexivity|]. split; [reflexivity|].
  split; [reflexivity|]. split; [reflexivity|]. lia.
Defined.

(** X4. [parse_trace_id] signals every failure with [ValueError] and with
    no other exception; when it returns, the value had exactly three
    colons and the four integers are in range. *)
Theorem parse_trace_id_returns_or_value_error (v : string) :
  JaegerConst.parse_trace_id v = Py.Raise Py.ValueError
  \/ exists t s p f,
       JaegerConst.parse_trace_id v = Py.Ok (t, s, p, f)
       /\ count ":" v = 3%nat
       /\ 0 < t /\ 0 < s /\ 0 <= p /\ 0 <= f.
Proof.
  destruct (JaegerConst.parse_trace_id v) as [[[[t s] p] f]|e] eqn:P.
  - right. exists t, s, p, f.
    destruct (parse_trace_id_ok v t s p f P)
      as (a & b & c & d & _ & _ & _ & _ & _ & Ht & Hs & Hp & Hf).
    split; [reflexivity|].
    split; [exact (parse_trace_id_three_colons v _ P)|].
    repeat split; assumption.
  - left. now rewrite (parse_trace_id_raises v e P).
Qed.

Lemma within_str_limit_true (t s p : Z) :
  within_str_limit t s p = true ->
  Py.str t = Py.Ok (Py.decimal t) /\ Py.str s = Py.Ok (Py.decimal s)
  /\ Py.str p = Py.Ok (Py.decimal p).
Proof.
  unfold within_str_limit, Py.str. intros H.
  destruct (Py.exceeds_max_str_digits t); [discriminate H|].
  destruct (Py.exceeds_max_str_digits s); [discriminate H|].
  destruct (Py.exceeds_max_str_digits p); [discriminate H|].
  repeat split.
Qed.

(** What [make_context] does once the value has been parsed. *)
Lemma make_context_parsed (headers : Headers) (v : string) (t s p f : Z) :
  last_value Py.lower JaegerConst.TRACE_ID_HEADER headers = Some v ->
  JaegerConst.parse_trace_id v = Py.Ok (t, s, p, f) ->
  JaegerConst.make_context headers =
    if within_str_limit t s p then Py.Ok (Some (decoded t s p f))
    else Py.Raise Py.ValidationError.
Proof.
  intros E P.
  pose proof (getitem_lower_keys headers JaegerConst.TRACE_ID_HEADER) as G.
  rewrite E in G.
  rewrite (make_context_present headers v G), P. apply construct_cases.
Qed.

Lemma make_context_some_inv (headers : Headers) (c : BaseTraceContext) :
  JaegerConst.make_context headers = Py.Ok (Some c) ->
  exists v t s p f,
    last_value Py.lower JaegerConst.TRACE_ID_HEADER headers = Some v
    /\ JaegerConst.parse_trace_id v = Py.Ok (t, s, p, f)
    /\ within_str_limit t s p = true
    /\ c = decoded t s p f.
Proof.
  intros H.
  pose proof (getitem_lower_keys headers JaegerConst.TRACE_ID_HEADER) as G.
  destruct (last_value Py.lower JaegerConst.TRACE_ID_HEADER headers)
    as [v|] eqn:E.
  - destruct (JaegerConst.parse_trace_id v) as [[[[t s] p] f]|e] eqn:P.
    + rewrite (make_context_parsed headers v t s p f E P) in H.
      exists v, t, s, p, f.
      destruct (within_str_limit t s p); [|discriminate H].
      inversion H. auto.
    + rewrite (make_context_present headers v G), P in H. discriminate.
  - rewrite (make_context_missing headers _ G) in H. discriminate.
Qed.

(** X5. [make_context] returns a context exactly when the last entry whose
    name lowers to [uber-trace-id] holds a value that [parse_trace_id]
    accepts and none of the three parsed identifiers has more decimal
    digits than [str()] renders; the context is then the one built from
    the four parsed integers. *)
Theorem make_context_accepts_iff (headers : Headers) (c : BaseTraceContext) :
  JaegerConst.make_context headers = Py.Ok (Some c)
  <-> exists v t s p f,
        last_value Py.lower JaegerConst.TRACE_ID_HEADER headers = Some v
        /\ JaegerConst.parse_trace_id v = Py.Ok (t, s, p, f)
        /\ within_str_limit t s p = true
        /\ c = decoded t s p f.
Proof.
  split.
  - apply make_context_some_inv.
  - intros (v & t & s & p & f & E & P & L & ->).
    now rewrite (make_context_parsed headers v t s p f E P), L.
Qed.

Lemma make_context_accepts_iff_witness :
  JaegerConst.make_context
    [("uber-trace-id", "bad"); ("UBER-TRACE-ID", "1f:2:0:1")]
  = Py.Ok (Some (decoded 31 2 0 1)).
Proof.
  apply (proj2 (make_context_accepts_iff
                  [("uber-trace-id", "bad"); ("UBER-TRACE-ID", "1f:2:0:1")]
                  (decoded 31 2 0 1))).
  exists "1f:2:0:1", 31, 2, 0, 1.
  split; [reflexivity|]. split; [reflexivity|]. split; reflexivity.
Defined.

(** ** How the flags field is read *)

Lemma land_pow2 (f n : Z) :
  0 <= n -> Z.land f (2 ^ n) = if Z.testbit f n then 2 ^ n else 0.
Proof.
  intros Hn. apply Z.bits_inj'. intros m Hm.
  rewrite Z.land_spec, Z.pow2_bits_eqb by assumption.
  destruct (Z.eqb_spec n m) as [->|N].
  - destruct (Z.testbit f m); simpl.
    + now rewrite Z.pow2_bits_true.
    + now rewrite Z.bits_0.
  - rewrite andb_false_r.
    destruct (Z.testbit f n).
    + now rewrite Z.pow2_bits_false.
    + now rewrite Z.bits_0.
Qed.

Lemma bool_of_land_pow2 (f n : Z) :
  0 <= n -> Py.bool_of_int (Z.land f (2 ^ n)) = Z.testbit f n.
Proof.
  intros Hn. rewrite (land_pow2 f n Hn). unfold Py.bool_of_int.
  destruct (Z.testbit f n); [|reflexivity].
  assert (0 < 2 ^ n) by (apply Z.pow_pos_nonneg; lia).
  destruct (Z.eqb_spec (2 ^ n) 0); [lia | reflexivity].
Qed.

(** X6. Every context that [make_context] returns has all six fields
    set: the identifiers are the decimal renderings of the three parsed
    integers, as [str()] gives them, the parent is present, [sampled] is
    bit 0 and [debug] is bit 1 of the parsed flags, whatever the other
    bits are, and [shared] is false. *)
Theorem make_context_fields (headers : Headers) (c : BaseTraceContext) :
  JaegerConst.make_context headers = Py.Ok (Some c) ->
  exists v t s p f,
    last_value Py.lower JaegerConst.TRACE_ID_HEADER headers = Some v
    /\ JaegerConst.parse_trace_id v = Py.Ok (t, s, p, f)
    /\ Py.str t = Py.Ok (trace_id c)
    /\ Py.str s = Py.Ok (span_id c)
    /\ (exists ps, Py.str p = Py.Ok ps /\ parent_id c = Some ps)
    /\ sampled c = Some (Z.testbit f 0)
    /\ debug c = Z.testbit f 1
    /\ shared c = false.
Proof.
  intros H.
  destruct (make_context_some_inv headers c H)
    as (v & t & s & p & f & E & P & L & ->).
  destruct (within_str_limit_true t s p L) as (St & Ss & Sp).
  exists v, t, s, p, f.
  assert (B0 : 0 <= 0) by lia. assert (B1 : 0 <= 1) by lia.
  split; [exact E|]. split; [exact P|]. split; [exact St|].
  split; [exact Ss|].
  split; [exists (Py.decimal p); split; [exact Sp | reflexivity]|].
  split; [|split; [|reflexivity]].
  - cbn [sampled decoded int_context]. f_equal.
    exact (bool_of_land_pow2 f 0 B0).
  - cbn [debug decoded int_context].
    exact (bool_of_land_pow2 f 1 B1).
Qed.

Lemma make_context_fields_witness :
  JaegerConst.make_context [("uber-trace-id", "1:2:0:e")]
    = Py.Ok (Some (decoded 1 2 0 14))
  /\ sampled (decoded 1 2 0 14) = Some false
  /\ debug (decoded 1 2 0 14) = true.
Proof.
  assert (H : JaegerConst.make_context [("uber-trace-id", "1:2:0:e")]
              = Py.Ok (Some (decoded 1 2 0 14))) by reflexivity.
  split; [exact H|].
  destruct (make_context_fields _ _ H)
    as (v & t & s & p & f & E & P & _ & _ & _ & Hs & Hd & _).
  inversion E; subst v. inversion P; subst.
  split; [exact Hs | exact Hd].
Defined.

(** ** Reading numerals with [to_int] *)

Lemma scan_digits_step (ch : ascii) (k : Z) (pu c : bool) (acc : Z)
      (r : string) :
  Ascii.eqb ch "_" = false ->
  Py.digit_value ch = Some k ->
  Py.scan_digits pu c acc (String ch r)
    = Py.scan_digits false true (acc * 16 + k) r.
Proof.
  intros E D. cbn [Py.scan_digits]. now rewrite E, D.
Qed.

(** A text that starts with its digits: no white space, sign, prefix or
    underscore is skipped before the digit loop. *)
Lemma int_16_of_scan (s : string) (z : Z) :
  Py.skip_space s = s -> Py.skip_sign s = (1, s) -> Py.skip_prefix s = s ->
  Py.starts_with_underscore s = false ->
  Py.scan_digits false false 0 s = Some (z, true, "") ->
  Py.int_16 s = Py.Ok z /\ Py.int_16 (String "-" s) = Py.Ok (- z).
Proof.
  intros H1 H2 H3 H4 H5. split.
  - unfold Py.int_16. rewrite H1, H2. cbv beta iota zeta.
    rewrite H3, H4, H5. cbn [negb Py.skip_space].
    f_equal; lia.
  - unfold Py.int_16.
    change (Py.skip_space (String "-" s)) with (String "-" s).
    change (Py.skip_sign (String "-" s)) with (-1, s).
    cbv beta iota zeta.
    rewrite H3, H4, H5. cbn [negb Py.skip_space].
    f_equal; lia.
Qed.

Ltac scan_step :=
  erewrite scan_digits_step; [ | reflexivity | reflexivity ];
  match goal with
  | |- Py.scan_digits _ _ (0 * 16 + ?k) _ = _ =>
      let v := eval vm_compute in (0 * 16 + k) in
      change (0 * 16 + k) with v
  | |- Py.scan_digits _ _ (_ * 16 + ?k) _ = _ =>
      let v := eval vm_compute in k in change k with v
  end.

Lemma scan_hex_from_pos (d : Hexadecimal.uint) (a : positive) (c : bool) :
  Py.scan_digits false c (Z.pos a)
    (HexadecimalString.NilEmpty.string_of_uint d)
  = Some (Z.pos (Pos.of_hex_uint_acc d a),
          match d with Hexadecimal.Nil => c | _ => true end, "").
Proof.
  revert a c; induction d as [|d IH|d IH|d IH|d IH|d IH|d IH|d IH|d IH
                              |d IH|d IH|d IH|d IH|d IH|d IH|d IH|d IH];
    intros a c; [reflexivity | ..];
    cbn [HexadecimalString.NilEmpty.string_of_uint Pos.of_hex_uint_acc];
    scan_step;
    match goal with
    | |- Py.scan_digits _ _ ?z _
         = Some (Z.pos (Pos.of_hex_uint_acc _ ?a'), _, _) =>
        replace z with (Z.pos a') by lia
    end;
    rewrite IH; destruct d; reflexivity.
Qed.

Lemma scan_hex (d : Hexadecimal.uint) (c : bool) :
  Py.scan_digits false c 0 (HexadecimalString.NilEmpty.string_of_uint d)
  = Some (Z.of_hex_uint d,
          match d with Hexadecimal.Nil => c | _ => true end, "").
Proof.
  revert c; induction d as [|d IH|d IH|d IH|d IH|d IH|d IH|d IH|d IH
                            |d IH|d IH|d IH|d IH|d IH|d IH|d IH|d IH];
    intros c; [reflexivity | ..];
    cbn [HexadecimalString.NilEmpty.string_of_uint];
    scan_step;
    [ rewrite IH; destruct d; reflexivity
    | rewrite scan_hex_from_pos; destruct d; reflexivity .. ].
Qed.

Lemma hex_numeral_plain (d : Hexadecimal.uint) :
  let s := HexadecimalString.NilEmpty.string_of_uint d in
  Py.skip_space s = s /\ Py.skip_sign s = (1, s) /\ Py.skip_prefix s = s
  /\ Py.starts_with_underscore s = false.
Proof.
  destruct d as [|d|d|d|d|d|d|d|d|d|d|d|d|d|d|d|d];
    try (repeat split; reflexivity).
  destruct d; repeat split; reflexivity.
Qed.

Lemma int_16_hex_uint (d : Hexadecimal.uint) :
  let s := HexadecimalString.NilZero.string_of_uint d in
  Py.int_16 s = Py.Ok (Z.of_hex_uint d)
  /\ Py.int_16 (String "-" s) = Py.Ok (- Z.of_hex_uint d).
Proof.
  destruct (hex_numeral_plain d) as (H1 & H2 & H3 & H4).
  pose proof (scan_hex d false) as H5.
  destruct d; try (split; reflexivity);
    exact (int_16_of_scan _ _ H1 H2 H3 H4 H5).
Qed.

Lemma int_16_hex (n : Z) : Py.int_16 (hex n) = Py.Ok n.
Proof.
  unfold hex.
  pose proof (HexadecimalZ.of_to n) as E.
  destruct (Z.to_hex_int n) as [d|d]; cbn in E; subst n.
  - apply int_16_hex_uint.
  - apply int_16_hex_uint.
Qed.

(** X7. [to_int] reads the lower-case hexadecimal numeral of every
    integer, negative ones included, back as that integer. *)
Theorem to_int_hex (n : Z) : JaegerConst.to_int (hex n) = Py.Ok n.
Proof.
  unfold JaegerConst.to_int. apply int_16_hex.
Qed.

Lemma hex_uint_colon_free (d : Hexadecimal.uint) :
  colon_free (HexadecimalString.NilEmpty.string_of_uint d).
Proof.
  unfold colon_free. induction d; simpl; auto.
Qed.

Lemma hex_colon_free (n : Z) : colon_free (hex n).
Proof.
  unfold hex, HexadecimalString.NilZero.string_of_int,
    HexadecimalString.NilZero.string_of_uint, colon_free.
  destruct (Z.to_hex_int n) as [d|d].
  - destruct d; try reflexivity; apply hex_uint_colon_free.
  - change (count ":" (String "-" ?s)) with (count ":" s).
    destruct d; try reflexivity; apply hex_uint_colon_free.
Qed.

Lemma parse_trace_id_wire (t s p f : Z) :
  0 < t -> 0 < s -> 0 <= p -> 0 <= f ->
  JaegerConst.parse_trace_id
    (hex t ++ ":" ++ hex s ++ ":" ++ hex p ++ ":" ++ hex f)
  = Py.Ok (t, s, p, f).
Proof.
  intros Ht Hs Hp Hf.
  set (v := hex t ++ ":" ++ hex s ++ ":" ++ hex p ++ ":" ++ hex f).
  assert (E : Py.split ":" 4 v = [hex t; hex s; hex p; hex f]).
  { unfold v. cbn [append].
    rewrite (split_first 3 _ _ (hex_colon_free t)),
            (split_first 2 _ _ (hex_colon_free s)),
            (split_first 1 _ _ (hex_colon_free p)).
    now rewrite (split_whole 1 _ (hex_colon_free f)). }
  rewrite (parse_trace_id_fields v _ _ _ _ E).
  unfold JaegerConst.to_int. rewrite !int_16_hex. simpl.
  destruct (Z.leb_spec t 0); [lia|]. destruct (Z.leb_spec s 0); [lia|].
  destruct (Z.ltb_spec p 0); [lia|]. destruct (Z.ltb_spec f 0); [lia|].
  reflexivity.
Qed.

Lemma last_value_single (k v : string) :
  Py.lower k = JaegerConst.TRACE_ID_HEADER ->
  last_value Py.lower JaegerConst.TRACE_ID_HEADER [(k, v)] = Some v.
Proof.
  intros K. cbn [last_value]. now rewrite K.
Qed.

Lemma make_context_wire (k : string) (t s p f : Z) :
  Py.lower k = JaegerConst.TRACE_ID_HEADER ->
  0 < t -> 0 < s -> 0 <= p -> 0 <= f ->
  JaegerConst.make_context
    [(k, hex t ++ ":" ++ hex s ++ ":" ++ hex p ++ ":" ++ hex f)]
  = if within_str_limit t s p then Py.Ok (Some (decoded t s p f))
    else Py.Raise Py.ValidationError.
Proof.
  intros K Ht Hs Hp Hf.
  exact (make_context_parsed _ _ t s p f (last_value_single k _ K)
           (parse_trace_id_wire t s p f Ht Hs Hp Hf)).
Qed.

(** X8. The decoder understands the wire format: a header whose name
    lowers to [uber-trace-id] and whose value is the four integers in
    lower-case hexadecimal, joined by colons, decodes to the context built
    from exactly these integers, provided they are in range and none of
    the three identifiers has more decimal digits than [str()] renders. *)
Theorem make_context_of_wire_format (k : string) (t s p f : Z) :
  Py.lower k = JaegerConst.TRACE_ID_HEADER ->
  0 < t -> 0 < s -> 0 <= p -> 0 <= f ->
  within_str_limit t s p = true ->
  JaegerConst.make_context
    [(k, hex t ++ ":" ++ hex s ++ ":" ++ hex p ++ ":" ++ hex f)]
  = Py.Ok (Some (decoded t s p f)).
Proof.
  intros K Ht Hs Hp Hf L.
  now rewrite (make_context_wire k t s p f K Ht Hs Hp Hf), L.
Qed.

Lemma make_context_of_wire_format_witness :
  Py.lower "Uber-Trace-ID" = JaegerConst.TRACE_ID_HEADER
  /\ within_str_limit 255 171 0 = true
  /\ hex 255 ++ ":" ++ hex 171 ++ ":" ++ hex 0 ++ ":" ++ hex 3 = "ff:ab:0:3"
  /\ JaegerConst.make_context [("Uber-Trace-ID", "ff:ab:0:3")]
       = Py.Ok (Some (decoded 255 171 0 3)).
Proof.
  split; [reflexivity|]. split; [reflexivity|]. split; [reflexivity|].
  apply (make_context_of_wire_format "Uber-Trace-ID" 255 171 0 3);
    [reflexivity | lia | lia | lia | lia | reflexivity].
Defined.

(** ** Identifiers beyond the digit limit of [str()] *)

Lemma of_uint_acc_bound (d : Decimal.uint) (a : positive) :
  Z.pos (Pos.of_uint_acc d a)
  < (Z.pos a + 1)
    * 10 ^ Z.of_nat (String.length (NilEmpty.string_of_uint d)).
Proof.
  revert a; induction d; intros a;
    cbn [Pos.of_uint_acc NilEmpty.string_of_uint String.length];
    [ cbn; lia | .. ];
    rewrite Nat2Z.inj_succ, Z.pow_succ_r by apply Nat2Z.is_nonneg;
    match goal with
    | |- Z.pos (Pos.of_uint_acc _ ?b) < _ =>
        specialize (IHd b);
        assert (0 < 10 ^ Z.of_nat
                           (String.length (NilEmpty.string_of_uint d)))
          by (apply Z.pow_pos_nonneg; [lia | apply Nat2Z.is_nonneg]);
        nia
    end.
Qed.

Lemma of_uint_bound (d : Decimal.uint) :
  Z.of_uint d < 10 ^ Z.of_nat (String.length (NilEmpty.string_of_uint d)).
Proof.
  unfold Z.of_uint.
  induction d;
    cbn [Pos.of_uint NilEmpty.string_of_uint String.length Z.of_N];
    [ cbn; lia | .. ];
    rewrite Nat2Z.inj_succ, Z.pow_succ_r by apply Nat2Z.is_nonneg;
    assert (0 < 10 ^ Z.of_nat (String.length (NilEmpty.string_of_uint d)))
      by (apply Z.pow_pos_nonneg; [lia | apply Nat2Z.is_nonneg]);
    [ lia | .. ];
    match goal with
    | |- Z.pos (Pos.of_uint_acc _ ?b) < _ =>
        pose proof (of_uint_acc_bound d b); nia
    end.
Qed.

(** A numeral of [k] digits denotes a number below [10 ^ k]. *)
Lemma decimal_bound (n : Z) :
  0 <= n -> n < 10 ^ Z.of_nat (String.length (Py.decimal n)).
Proof.
  intros Hn. unfold Py.decimal.
  pose proof (DecimalZ.of_to n) as E.
  destruct (Z.to_int n) as [d|d] eqn:T; cbn in E.
  - cbn [NilZero.string_of_int]. unfold NilZero.string_of_uint.
    pose proof (of_uint_bound d) as B. rewrite E in B.
    destruct d; [cbn in E; subst n; cbn; lia | exact B ..].
  - assert (Z0 : n = 0).
    { pose proof (N2Z.is_nonneg (Pos.of_uint d)). unfold Z.of_uint in E. lia. }
    rewrite Z0 in T. vm_compute in T. discriminate T.
Qed.

Lemma exceeds_of_large (n : Z) :
  10 ^ Z.of_nat Py.int_max_str_digits <= Z.abs n ->
  Py.exceeds_max_str_digits n = true.
Proof.
  intros H. unfold Py.exceeds_max_str_digits.
  destruct (Nat.ltb_spec Py.int_max_str_digits
              (String.length (Py.decimal (Z.abs n)))) as [L|L];
    [reflexivity|].
  exfalso.
  pose proof (decimal_bound (Z.abs n) (Z.abs_nonneg n)) as B.
  assert (M : 10 ^ Z.of_nat (String.length (Py.decimal (Z.abs n)))
              <= 10 ^ Z.of_nat Py.int_max_str_digits)
    by (apply Z.pow_le_mono_r; [lia | apply Nat2Z.inj_le; exact L]).
  lia.
Qed.

(** [16 ^ 3600 - 1], the number that 3600 digits [f] denote, has more than
    4300 decimal digits. *)
Lemma exceeds_3600_hex_digits :
  Py.exceeds_max_str_digits (16 ^ 3600 - 1) = true.
Proof.
  apply exceeds_of_large.
  assert (P1 : 10 ^ Z.of_nat Py.int_max_str_digits <= 10 ^ (6 * 720))
    by (apply Z.pow_le_mono_r; [reflexivity | discriminate]).
  assert (P2 : 10 ^ (6 * 720) < 16 ^ (5 * 720)).
  { rewrite !Z.pow_mul_r by (intro; discriminate).
    apply Z.pow_lt_mono_l; [reflexivity | split; [discriminate | reflexivity]]. }
  change (5 * 720) with 3600 in P2.
  revert P1 P2.
  generalize (10 ^ Z.of_nat Py.int_max_str_digits), (10 ^ (6 * 720)),
    (16 ^ 3600).
  intros a b c P1 P2. lia.
Qed.

(** C2. Decoding can raise.  The header value [1:ff...f:0:1] with 3600
    digits [f] passes [parse_trace_id], which reads the span identifier
    [16 ^ 3600 - 1]; the construction of the context, which is not inside
    the [try], then fails on rendering this integer, and [make_context]
    raises [ValidationError] where the claim has it return [None] or a
    context. *)
Theorem make_context_raises_validation_error :
  JaegerConst.parse_trace_id
    (hex 1 ++ ":" ++ hex (16 ^ 3600 - 1) ++ ":" ++ hex 0 ++ ":" ++ hex 1)
    = Py.Ok (1, 16 ^ 3600 - 1, 0, 1)
  /\ Py.str (16 ^ 3600 - 1) = Py.Raise Py.ValueError
  /\ JaegerConst.make_context
       [("uber-trace-id",
         hex 1 ++ ":" ++ hex (16 ^ 3600 - 1) ++ ":" ++ hex 0 ++ ":" ++ hex 1)]
     = Py.Raise Py.ValidationError.
Proof.
  assert (B : 0 < 16 ^ 3600 - 1).
  { assert (16 ^ 1 <= 16 ^ 3600)
      by (apply Z.pow_le_mono_r; [reflexivity | discriminate]).
    revert H. change (16 ^ 1) with 16. generalize (16 ^ 3600). intros; lia. }
  pose proof exceeds_3600_hex_digits as X.
  revert B X. generalize (16 ^ 3600 - 1). intros n B X.
  split; [apply parse_trace_id_wire; lia|].
  split; [unfold Py.str; now rewrite X|].
  rewrite (make_context_wire "uber-trace-id" 1 n 0 1) by (reflexivity || lia).
  unfold within_str_limit. rewrite X. reflexivity.
Qed.

(** X14. What [make_context] can do, for every mapping: it returns [None],
    or it returns the context built from the four parsed integers, none
    of the three identifiers having more digits than [str()] renders, or
    it raises [ValidationError], which happens exactly when the value was
    parsed and one of the three identifiers has too many digits.  It
    raises no other exception. *)
Theorem make_context_outcomes (headers : Headers) :
  JaegerConst.make_context headers = Py.Ok None
  \/ (exists v t s p f,
        last_value Py.lower JaegerConst.TRACE_ID_HEADER headers = Some v
        /\ JaegerConst.parse_trace_id v = Py.Ok (t, s, p, f)
        /\ within_str_limit t s p = true
        /\ JaegerConst.make_context headers = Py.Ok (Some (decoded t s p f)))
  \/ (exists v t s p f,
        last_value Py.lower JaegerConst.TRACE_ID_HEADER headers = Some v
        /\ JaegerConst.parse_trace_id v = Py.Ok (t, s, p, f)
        /\ within_str_limit t s p = false
        /\ JaegerConst.make_context headers = Py.Raise Py.ValidationError).
Proof.
  pose proof (getitem_lower_keys headers JaegerConst.TRACE_ID_HEADER) as G.
  destruct (last_value Py.lower JaegerConst.TRACE_ID_HEADER headers)
    as [v|] eqn:E.
  - destruct (JaegerConst.parse_trace_id v) as [[[[t s] p] f]|e] eqn:P.
    + pose proof (make_context_parsed headers v t s p f E P) as M.
      destruct (within_str_limit t s p) eqn:L.
      * right; left. exists v, t, s, p, f. auto.
      * right; right. exists v, t, s, p, f. auto.
    + left. now rewrite (make_context_present headers v G), P.
  - left. exact (make_context_missing headers _ G).
Qed.

(** ** Reading back what the encoder writes *)

Lemma scan_decimal (d : Decimal.uint) (acc : Z) (c : bool) :
  Py.scan_digits false c acc (NilEmpty.string_of_uint d)
  = Some (hexread_acc d acc,
          match d with Decimal.Nil => c | _ => true end, "").
Proof.
  revert acc c; induction d as [|d IH|d IH|d IH|d IH|d IH|d IH|d IH|d IH
                                |d IH|d IH];
    intros acc c; [reflexivity | ..];
    cbn [NilEmpty.string_of_uint hexread_acc];
    (erewrite scan_digits_step; [ | reflexivity | reflexivity ]);
    rewrite IH; destruct d; reflexivity.
Qed.

Lemma decimal_numeral_plain (d : Decimal.uint) :
  let s := NilEmpty.string_of_uint d in
  Py.skip_space s = s /\ Py.skip_sign s = (1, s) /\ Py.skip_prefix s = s
  /\ Py.starts_with_underscore s = false.
Proof.
  destruct d as [|d|d|d|d|d|d|d|d|d|d];
    try (repeat split; reflexivity).
  destruct d; repeat split; reflexivity.
Qed.

Lemma int_16_decimal_uint (d : Decimal.uint) :
  Py.int_16 (NilZero.string_of_uint d) = Py.Ok (hexread_acc d 0).
Proof.
  destruct (decimal_numeral_plain d) as (H1 & H2 & H3 & H4).
  pose proof (scan_decimal d 0 false) as H5.
  destruct d; try reflexivity;
    exact (proj1 (int_16_of_scan _ _ H1 H2 H3 H4 H5)).
Qed.

(** Base sixteen never reads less than base ten. *)
Lemma hexread_lt (d : Decimal.uint) (a10 : positive) (a16 : Z) :
  Z.pos a10 < a16 -> Z.pos (Pos.of_uint_acc d a10) < hexread_acc d a16.
Proof.
  revert a10 a16; induction d; intros a10 a16 H;
    cbn [Pos.of_uint_acc hexread_acc]; [assumption | apply IHd; lia ..].
Qed.

Lemma hexread_le (d : Decimal.uint) (a : positive) :
  Z.pos (Pos.of_uint_acc d a) <= hexread_acc d (Z.pos a)
  /\ (d <> Decimal.Nil ->
      Z.pos (Pos.of_uint_acc d a) < hexread_acc d (Z.pos a)).
Proof.
  assert (S : d <> Decimal.Nil ->
              Z.pos (Pos.of_uint_acc d a) < hexread_acc d (Z.pos a)).
  { intros N. destruct d; [congruence | ..];
      cbn [Pos.of_uint_acc hexread_acc]; apply hexread_lt; lia. }
  split; [|exact S].
  destruct d; [cbn; lia | ..]; apply Z.lt_le_incl, S; discriminate.
Qed.

Lemma of_uint_acc_grows (d : Decimal.uint) (a : positive) :
  Z.pos a <= Z.pos (Pos.of_uint_acc d a).
Proof.
  revert a; induction d; intros a; cbn [Pos.of_uint_acc];
    [lia | etransitivity; [|apply IHd]; lia ..].
Qed.

Lemma of_uint_acc_two_digits (d : Decimal.uint) (a : positive) :
  d <> Decimal.Nil -> 10 <= Z.pos (Pos.of_uint_acc d a).
Proof.
  intros N. destruct d; [congruence | ..]; cbn [Pos.of_uint_acc];
    (etransitivity; [|apply of_uint_acc_grows]); lia.
Qed.

Lemma hexread_of_uint (d : Decimal.uint) :
  Z.of_uint d <= hexread_acc d 0
  /\ (hexread_acc d 0 = Z.of_uint d <-> Z.of_uint d < 10).
Proof.
  unfold Z.of_uint.
  induction d as [|d IH|d IH|d IH|d IH|d IH|d IH|d IH|d IH|d IH|d IH];
    [cbn; lia | exact IH | ..];
    cbn [Pos.of_uint hexread_acc Z.of_N Z.mul Z.add Pos.add];
    (destruct (Decimal.uint_eq_dec d Decimal.Nil) as [->|N];
     [ cbn; lia
     | match goal with
       | |- context [Pos.of_uint_acc d ?a] =>
           pose proof (proj2 (hexread_le d a) N);
           pose proof (of_uint_acc_two_digits d a N)
       end; lia ]).
Qed.

Lemma int_16_str (n : Z) :
  0 <= n ->
  exists m,
    Py.int_16 (Py.decimal n) = Py.Ok m /\ n <= m /\ (m = n <-> n < 10).
Proof.
  intros Hn. unfold Py.decimal.
  pose proof (DecimalZ.of_to n) as E.
  destruct (Z.to_int n) as [d|d] eqn:T; cbn in E.
  - exists (hexread_acc d 0). subst n.
    split; [apply int_16_decimal_uint | apply hexread_of_uint].
  - assert (Z0 : n = 0).
    { pose proof (N2Z.is_nonneg (Pos.of_uint d)). unfold Z.of_uint in E. lia. }
    rewrite Z0 in T. vm_compute in T. discriminate T.
Qed.

(** X9. [to_int] accepts the decimal numeral of every integer that is
    not negative, but reads it in base sixteen: the result is never
    smaller than the integer and equals it only below ten. *)
Theorem to_int_of_decimal (n : Z) :
  0 <= n ->
  exists m,
    JaegerConst.to_int (Py.decimal n) = Py.Ok m
    /\ n <= m /\ (m = n <-> n < 10).
Proof.
  exact (int_16_str n).
Qed.

Lemma to_int_of_decimal_witness :
  0 <= 255
  /\ exists m, JaegerConst.to_int (Py.decimal 255) = Py.Ok m
               /\ 255 <= m /\ (m = 255 <-> 255 < 10).
Proof.
  assert (H : 0 <= 255) by lia.
  split; [exact H | exact (to_int_of_decimal 255 H)].
Defined.

(** X10. Encoding a context with integer identifiers in range and
    decoding the result never gives [None].  Each identifier is read back
    as its decimal digits in base sixteen, which is the identifier itself
    exactly when it is below ten and a larger number otherwise.  When
    none of the numbers read back has more digits than [str()] renders,
    the result is the context with these identifiers, the flags as they
    were (an unset [sampled] as false) and [shared] false; otherwise the
    construction raises [ValidationError]. *)
Theorem roundtrip_rereads_identifiers (t s p : Z) (sa : option bool)
        (d sh : bool) :
  0 < t -> 0 < s -> 0 <= p ->
  exists t' s' p',
    JaegerConst.make_context
      (JaegerConst.make_headers (int_context t s (Some p) sa d sh))
    = (if within_str_limit t' s' p'
       then Py.Ok (Some (int_context t' s' (Some p')
                           (Some (Py.truthy sa)) d false))
       else Py.Raise Py.ValidationError)
    /\ JaegerConst.make_context
         (JaegerConst.make_headers (int_context t s (Some p) sa d sh))
       <> Py.Ok None
    /\ t <= t' /\ s <= s' /\ p <= p'
    /\ (t' = t <-> t < 10) /\ (s' = s <-> s < 10) /\ (p' = p <-> p < 10).
Proof.
  intros Ht Hs Hp.
  destruct (int_16_str t) as (t' & Et & Lt & It); [lia|].
  destruct (int_16_str s) as (s' & Es & Ls & Is); [lia|].
  destruct (int_16_str p) as (p' & Ep & Lp & Ip); [lia|].
  exists t', s', p'.
  rewrite make_context_make_headers
    by exact (int_ids_colon_free t s (Some p) sa d sh).
  cbn [trace_id span_id parent_id int_context option_map
       Py.str_of_optional].
  unfold JaegerConst.to_int. rewrite Et, Es, Ep. cbn [Py.bind].
  destruct (Z.leb_spec t' 0); [lia|].
  destruct (Z.leb_spec s' 0); [lia|].
  destruct (Z.ltb_spec p' 0); [lia|].
  cbn [orb]. rewrite construct_cases.
  assert (D : decoded t' s' p'
                (JaegerConst.flags_of (int_context t s (Some p) sa d sh))
              = int_context t' s' (Some p') (Some (Py.truthy sa)) d false).
  { unfold decoded. rewrite flags_of_range. cbn [sampled debug int_context].
    destruct (Py.truthy sa), d; reflexivity. }
  rewrite D.
  split; [reflexivity|].
  split; [destruct (within_str_limit t' s' p'); discriminate|].
  repeat split; tauto.
Qed.

Lemma roundtrip_rereads_identifiers_witness :
  0 < 10 /\ 0 < 1 /\ 0 <= 0
  /\ exists t' s' p',
       JaegerConst.make_context
         (JaegerConst.make_headers (int_context 10 1 (Some 0) None true true))
       = (if within_str_limit t' s' p'
          then Py.Ok (Some (int_context t' s' (Some p')
                              (Some (Py.truthy None)) true false))
          else Py.Raise Py.ValidationError)
       /\ JaegerConst.make_context
            (JaegerConst.make_headers
               (int_context 10 1 (Some 0) None true true))
          <> Py.Ok None
       /\ 10 <= t' /\ 1 <= s' /\ 0 <= p'
       /\ (t' = 10 <-> 10 < 10) /\ (s' = 1 <-> 1 < 10) /\ (p' = 0 <-> 0 < 10).
Proof.
  assert (H1 : 0 < 10) by lia. assert (H2 : 0 < 1) by lia.
  assert (H3 : 0 <= 0) by lia.
  split; [exact H1|]. split; [exact H2|]. split; [exact H3|].
  exact (roundtrip_rereads_identifiers 10 1 0 None true true H1 H2 H3).
Defined.

(** ** Contexts that do not survive encoding *)

Lemma make_context_unreadable_id (c : BaseTraceContext) :
  (exists e, JaegerConst.to_int (trace_id c) = Py.Raise e)
  \/ (exists e, JaegerConst.to_int (span_id c) = Py.Raise e)
  \/ (exists e, JaegerConst.to_int (Py.str_of_optional (parent_id c))
                = Py.Raise e) ->
  JaegerConst.make_context (JaegerConst.make_headers c) = Py.Ok None.
Proof.
  intros H.
  assert (G : Py.getitem (JaegerConst.lower_keys (JaegerConst.make_headers c))
                JaegerConst.TRACE_ID_HEADER
              = Py.Ok (JaegerConst.make_trace_id c)) by reflexivity.
  destruct (Nat.eq_dec (count ":" (JaegerConst.make_trace_id c)) 3) as [E|N].
  - rewrite make_trace_id_colons in E.
    rewrite make_context_make_headers
      by (unfold ids_colon_free, colon_free; repeat split; lia).
    destruct H as [(e & H) | [(e & H) | (e & H)]].
    + now rewrite H.
    + rewrite H. now destruct (JaegerConst.to_int (trace_id c)).
    + rewrite H. destruct (JaegerConst.to_int (trace_id c)); [|reflexivity].
      now destruct (JaegerConst.to_int (span_id c)).
  - apply (make_context_rejects _ _ G), parse_trace_id_wrong_length.
    rewrite split_length. lia.
Qed.

(** X11. A context one of whose identifiers [to_int] cannot read encodes
    to a header that the decoder turns down: decoding gives [None]. *)
Theorem roundtrip_unreadable_identifier (c : BaseTraceContext) :
  (exists e, JaegerConst.to_int (trace_id c) = Py.Raise e)
  \/ (exists e, JaegerConst.to_int (span_id c) = Py.Raise e)
  \/ (exists e, JaegerConst.to_int (Py.str_of_optional (parent_id c))
                = Py.Raise e) ->
  JaegerConst.make_context (JaegerConst.make_headers c) = Py.Ok None.
Proof.
  exact (make_context_unreadable_id c).
Qed.

Lemma roundtrip_unreadable_identifier_witness :
  exists c,
    DummyTraceContext.make_context [] None = Py.Ok c
    /\ JaegerConst.to_int (trace_id c) = Py.Raise Py.ValueError
    /\ JaegerConst.make_context (JaegerConst.make_headers c) = Py.Ok None.
Proof.
  exists {| trace_id := "dummy-trace-id"; span_id := "dummy-span-id";
            parent_id := Some "dummy-parent-id"; sampled := Some true;
            debug := false; shared := false |}.
  split; [reflexivity|]. split; [reflexivity|].
  apply roundtrip_unreadable_identifier.
  left. exists Py.ValueError. reflexivity.
Defined.

(** X12. A context without a parent is written with the parent field
    [None], which is no numeral: whatever its other fields are, decoding
    its encoding gives [None]. *)
Theorem roundtrip_without_parent (c : BaseTraceContext) :
  parent_id c = None ->
  JaegerConst.make_context (JaegerConst.make_headers c) = Py.Ok None.
Proof.
  intros H. apply make_context_unreadable_id.
  right; right. exists Py.ValueError. now rewrite H.
Qed.

Lemma roundtrip_without_parent_witness :
  Pydantic.init (Pydantic.VInt 1) (Pydantic.VInt 2) None
    (Some true) false false
    = Py.Ok (int_context 1 2 None (Some true) false false)
  /\ parent_id (int_context 1 2 None (Some true) false false) = None
  /\ JaegerConst.make_headers (int_context 1 2 None (Some true) false false)
     = [("uber-trace-id", "1:2:None:1")]
  /\ JaegerConst.make_context [("uber-trace-id", "1:2:None:1")] = Py.Ok None.
Proof.
  split; [reflexivity|]. split; [reflexivity|]. split; [reflexivity|].
  exact (roundtrip_without_parent
           (int_context 1 2 None (Some true) false false) eq_refl).
Defined.

(** ** Decoding and then encoding *)

Lemma flags_of_decoded (t s p f : Z) :
  JaegerConst.flags_of (decoded t s p f) = Z.land f 3.
Proof.
  assert (B0 : 0 <= 0) by lia. assert (B1 : 0 <= 1) by lia.
  rewrite flags_of_range. cbn [sampled debug decoded int_context Py.truthy].
  change JaegerConst.SAMPLED_FLAG with (2 ^ 0).
  change JaegerConst.DEBUG_FLAG with (2 ^ 1).
  rewrite (bool_of_land_pow2 f 0 B0), (bool_of_land_pow2 f 1 B1).
  change 3 with (Z.lor (2 ^ 0) (2 ^ 1)).
  rewrite Z.land_lor_distr_r, (land_pow2 f 0 B0), (land_pow2 f 1 B1).
  destruct (Z.testbit f 0), (Z.testbit f 1); reflexivity.
Qed.

(** X13. Passing a decoded context on: encoding the context that
    [make_context] returned writes the single header [uber-trace-id] with
    the three parsed identifiers in decimal and, of the parsed flags, only
    the sampled and debug bits. *)
Theorem make_headers_of_decoded (headers : Headers) (c : BaseTraceContext) :
  JaegerConst.make_context headers = Py.Ok (Some c) ->
  exists v t s p f,
    last_value Py.lower JaegerConst.TRACE_ID_HEADER headers = Some v
    /\ JaegerConst.parse_trace_id v = Py.Ok (t, s, p, f)
    /\ JaegerConst.make_headers c =
         [("uber-trace-id",
           Py.decimal t ++ ":" ++ Py.decimal s ++ ":" ++ Py.decimal p ++ ":"
             ++ Py.decimal (Z.land f 3))].
Proof.
  intros H.
  destruct (make_context_some_inv headers c H)
    as (v & t & s & p & f & E & P & _ & ->).
  exists v, t, s, p, f.
  split; [exact E|]. split; [exact P|].
  unfold JaegerConst.make_headers, JaegerConst.make_trace_id.
  now rewrite flags_of_decoded.
Qed.

Lemma make_headers_of_decoded_witness :
  JaegerConst.make_context [("Uber-Trace-Id", "ff:a:0:7")]
    = Py.Ok (Some (decoded 255 10 0 7))
  /\ JaegerConst.make_headers (decoded 255 10 0 7)
     = [("uber-trace-id", "255:10:0:3")].
Proof.
  assert (H : JaegerConst.make_context [("Uber-Trace-Id", "ff:a:0:7")]
              = Py.Ok (Some (decoded 255 10 0 7))) by reflexivity.
  split; [exact H|].
  destruct (make_headers_of_decoded _ _ H)
    as (v & t & s & p & f & E & P & M).
  inversion E; subst v. inversion P; subst.
  exact M.
Defined.
